(** * flojoy_cloud: data containers, their schemas, payloads and conversions

    A shallow embedding of [src/flojoy/flojoy_cloud.py]:

    - [NumpyEncoder] and the part of [json.dumps] / [json.loads] it plugs into;
    - the seven pydantic models and their two validators each;
    - [check_deserialize], [FlojoyCloud.create_payload], [FlojoyCloud.fetch_dc]
      and [FlojoyCloud.to_python].

    Conventions of the embedding.

    - Python values are the inductive [value]; a [dict] is an association
      list in insertion order with [str] keys (the only keys the module ever
      uses, and the only ones [json.loads] produces).
    - A call either returns or raises: [result].  Code that also prints is in
      [M], which threads the standard output and keeps what was printed when
      an exception is raised afterwards.
    - JSON text is represented by its document tree [json]: [json.dumps]
      builds the tree, [json.loads] reads it back.
    - Floats are IEEE binary64 values, as [spec_float].
    - numpy, pandas, PIL and pydantic are libraries outside the repository;
      the fragment of each that the module calls is modelled next to its
      first use, with what is left out marked [NotModelled]. *)

From Stdlib Require Import ZArith String List Lia Bool.
From Stdlib Require Import Floats.SpecFloat.
From stdpp Require Import base list strings pretty.
Import ListNotations.

Local Set Warnings "-register-all".
Local Open Scope string_scope.
Local Open Scope list_scope.

(** ** Strings with quotation marks *)

Definition dquote : string := String (Ascii.ascii_of_nat 34) EmptyString.

Definition quoted (s : string) : string := dquote +:+ s +:+ dquote.

(** ** Exceptions *)

Inductive exn : Type :=
| AssertionError (msg : string)
| TypeError (msg : string)
| ValueError (msg : string)
| KeyError (key : string)
| IndexError (msg : string)
| AttributeError (msg : string)
| AxisError
| OverflowError
| RecursionError
| UnboundLocalError (name : string)
| JSONDecodeError
(* pydantic.errors *)
| MissingError
| NoneIsNotAllowedError
| StrError
| DictError
(* pydantic.ValidationError: the model's name and its (loc, error) list *)
| ValidationError (model : string) (errors : list (string * exn))
(* a library call outside the modelled fragment *)
| NotModelled (what : string).

(** ** Results and the output monad *)

Inductive result (A : Type) : Type :=
| Return (a : A)
| Raise (e : exn).

Arguments Return {A} a.
Arguments Raise {A} e.

Definition bind {A B : Type} (c : result A) (k : A -> result B) : result B :=
  match c with
  | Return a => k a
  | Raise e => Raise e
  end.

Declare Scope py_scope.
Delimit Scope py_scope with py.

Notation "x <- c ;; k" := (bind c (fun x => k))
  (at level 100, c at next level, right associativity) : py_scope.
Notation "c ;;; k" := (bind c (fun _ => k))
  (at level 100, right associativity) : py_scope.

Local Open Scope py_scope.

(** [assert cond, msg], assertions being enabled (the interpreter's
    default). *)
Definition py_assert (cond : bool) (msg : string) : result unit :=
  if cond then Return tt else Raise (AssertionError msg).

Definition mapR {A B : Type} (f : A -> result B) : list A -> result (list B) :=
  fix go (l : list A) : result (list B) :=
    match l with
    | [] => Return []
    | x :: r => y <- f x ;; ys <- go r ;; Return (y :: ys)
    end.

(** ** Values *)

Inductive npfloat_kind : Type := float16 | float32 | float64 | longdouble.

Inductive label : Type :=
| LInt (n : Z)
| LStr (s : string).

Inductive value : Type :=
| PNone
| PBool (b : bool)
| PInt (z : Z)
| PFloat (f : spec_float)
| PStr (s : string)
| PList (l : list value)
| PDict (d : list (string * value))
(* numpy: an np.integer of any width, an np.floating, an ndarray given by
   its shape and its items in row-major (logical) order *)
| NpInteger (z : Z)
| NpFloating (k : npfloat_kind) (f : spec_float)
| NdArray (shape : list nat) (items : list value)
(* pandas.DataFrame: column labels, row labels, one list of cells per column *)
| DataFrame (columns index : list label) (data : list (list value))
(* PIL.Image.Image: mode, height, width, pixels in row-major order, each
   pixel the list of its bands *)
| PILImage (mode : string) (height width : nat) (pixels : list (list Z))
(* an instance of a class with no special methods *)
| PObject (cls : string).

(** [type(v).__name__], as error messages show it. *)
Definition type_name (v : value) : string :=
  match v with
  | PNone => "NoneType"
  | PBool _ => "bool"
  | PInt _ => "int"
  | PFloat _ => "float"
  | PStr _ => "str"
  | PList _ => "list"
  | PDict _ => "dict"
  | NpInteger _ => "integer"
  | NpFloating float16 _ => "float16"
  | NpFloating float32 _ => "float32"
  | NpFloating float64 _ => "float64"
  | NpFloating longdouble _ => "longdouble"
  | NdArray _ _ => "ndarray"
  | DataFrame _ _ _ => "DataFrame"
  | PILImage _ _ _ _ => "Image"
  | PObject cls => cls
  end.

(** [str(type(v))] for the builtin types, as in [<class 'str'>]. *)
Definition type_repr (v : value) : string :=
  "<class '" +:+ type_name v +:+ "'>".

(** The classes the module tests with [isinstance]. *)
Inductive pytype : Type :=
| t_int | t_float | t_list | t_dict | t_str
| np_integer | np_floating | np_ndarray.

(** [bool] is a subclass of [int]; [np.float64] is a subclass of [float]. *)
Definition isinstance (v : value) (t : pytype) : bool :=
  match t, v with
  | t_int, (PInt _ | PBool _) => true
  | t_float, (PFloat _ | NpFloating float64 _) => true
  | t_list, PList _ => true
  | t_dict, PDict _ => true
  | t_str, PStr _ => true
  | np_integer, NpInteger _ => true
  | np_floating, NpFloating _ _ => true
  | np_ndarray, NdArray _ _ => true
  | _, _ => false
  end.

(** [v == s] for a string literal [s]: only an equal [str] compares equal. *)
Definition eq_str (v : value) (s : string) : bool :=
  match v with
  | PStr s' => String.eqb s' s
  | _ => false
  end.

(** ** Dictionaries *)

Fixpoint dict_get {A : Type} (d : list (string * A)) (k : string) : option A :=
  match d with
  | [] => None
  | (k', v) :: r => if String.eqb k' k then Some v else dict_get r k
  end.

Definition dict_contains {A : Type} (d : list (string * A)) (k : string) : bool :=
  match dict_get d k with
  | Some _ => true
  | None => false
  end.

(** [d[k] = v]: overwrite in place, or append. *)
Fixpoint dict_set {A : Type} (d : list (string * A)) (k : string) (v : A)
  : list (string * A) :=
  match d with
  | [] => [(k, v)]
  | (k', v') :: r =>
      if String.eqb k' k then (k', v) :: r else (k', v') :: dict_set r k v
  end.

(** [o[key]] for a string key. *)
Definition getitem (o : value) (key : string) : result value :=
  match o with
  | PDict d =>
      match dict_get d key with
      | Some v => Return v
      | None => Raise (KeyError key)
      end
  | PList _ => Raise (TypeError "list indices must be integers or slices, not str")
  | PStr _ => Raise (TypeError "string indices must be integers")
  | NpInteger _ | NpFloating _ _ =>
      Raise (IndexError "invalid index to scalar variable.")
  | NdArray _ _ =>
      Raise (IndexError "only integers, slices, ellipsis, numpy.newaxis and integer or boolean arrays are valid indices")
  | DataFrame _ _ _ => Raise (NotModelled "DataFrame.__getitem__")
  | _ => Raise (TypeError ("'" +:+ type_name o +:+ "' object is not subscriptable"))
  end.

(** [key in o]; the module only ever asks it of a dict. *)
Definition contains (key : string) (o : value) : result bool :=
  match o with
  | PDict d => Return (dict_contains d key)
  | _ => Raise (NotModelled "in")
  end.

(** ** JSON documents, [json.loads] *)

Inductive json : Type :=
| JNull
| JBool (b : bool)
| JInt (z : Z)
| JFloat (f : spec_float)
| JString (s : string)
| JArray (l : list json)
| JObject (members : list (string * json)).

(** The text of an HTTP response body: a JSON document, or anything else. *)
Inductive text : Type :=
| Document (j : json)
| Malformed (s : string).

(** A dict built from pairs in order: a repeated key keeps its first
    position and takes the last value. *)
Definition dict_of_pairs {A : Type} (l : list (string * A)) : list (string * A) :=
  fold_left (fun d kv => dict_set d (fst kv) (snd kv)) l [].

(** [JSONDecoder.decode] on a document. *)
Fixpoint decode (j : json) : value :=
  match j with
  | JNull => PNone
  | JBool b => PBool b
  | JInt z => PInt z
  | JFloat f => PFloat f
  | JString s => PStr s
  | JArray l => PList (map decode l)
  | JObject m => PDict (dict_of_pairs (map (fun kv => (fst kv, decode (snd kv))) m))
  end.

Definition json_loads (t : text) : result value :=
  match t with
  | Document j => Return (decode j)
  | Malformed _ => Raise JSONDecodeError
  end.

(** ** numpy: [ndarray.tolist] *)

Definition prod_list (shape : list nat) : nat := fold_right Nat.mul 1 shape.

(** [n] consecutive blocks of [size] items each. *)
Fixpoint chunks {A : Type} (n size : nat) (l : list A) : list (list A) :=
  match n with
  | O => []
  | S n' => take size l :: chunks n' size (drop size l)
  end.

(** [x.item()]: a numpy scalar as the Python number it holds. *)
Definition item (x : value) : value :=
  match x with
  | NpInteger z => PInt z
  | NpFloating _ f => PFloat f
  | _ => x
  end.

(** [a.tolist()] for an array of the given shape: nested lists along the
    axes in order, a 0-d array giving its single item.  (An array always has
    [prod_list shape] items; [PNone] stands for the item of a 0-d array that
    has none.) *)
Fixpoint tolist (shape : list nat) (items : list value) : value :=
  match shape with
  | [] => match items with x :: _ => item x | [] => PNone end
  | n :: rest => PList (map (tolist rest) (chunks n (prod_list rest) items))
  end.

(** ** [json.JSONEncoder] and [NumpyEncoder] *)

Inductive encoder : Type := JSONEncoder | NumpyEncoder.

Definition JSONEncoder_default (o : value) : result value :=
  Raise (TypeError ("Object of type " +:+ type_name o +:+ " is not JSON serializable")).

(** [NumpyEncoder.default]: [int(obj)], [float(obj)] and [obj.tolist()] on
    the three numpy classes, the base class's [default] otherwise. *)
Definition NumpyEncoder_default (obj : value) : result value :=
  match obj with
  | NpInteger z => Return (PInt z)
  | NpFloating _ f => Return (PFloat f)
  | NdArray shape items => Return (tolist shape items)
  | _ => JSONEncoder_default obj
  end.

Definition default (cls : encoder) (o : value) : result value :=
  match cls with
  | JSONEncoder => JSONEncoder_default o
  | NumpyEncoder => NumpyEncoder_default o
  end.

(** [JSONEncoder.iterencode]: str, None, bool, int, float (an [np.float64]
    is a [float]), list and dict are written directly; anything else goes
    through [default], and its result is encoded [again]. *)
Definition encode_with (cls : encoder) (again : value -> result json)
  : value -> result json :=
  fix enc (o : value) : result json :=
    match o with
    | PStr s => Return (JString s)
    | PNone => Return JNull
    | PBool b => Return (JBool b)
    | PInt z => Return (JInt z)
    | PFloat f => Return (JFloat f)
    | NpFloating float64 f => Return (JFloat f)
    | PList l =>
        js <- (fix encl (l : list value) : result (list json) :=
                 match l with
                 | [] => Return []
                 | x :: r => j <- enc x ;; js <- encl r ;; Return (j :: js)
                 end) l ;;
        Return (JArray js)
    | PDict d =>
        ms <- (fix encd (d : list (string * value)) : result (list (string * json)) :=
                 match d with
                 | [] => Return []
                 | (k, v) :: r => j <- enc v ;; ms <- encd r ;; Return ((k, j) :: ms)
                 end) d ;;
        Return (JObject ms)
    | _ =>
        o' <- default cls o ;;
        again o'
    end.

(** The encoder re-enters itself on what [default] returned; [depth] bounds
    the chain of [default] calls, as the interpreter's recursion limit
    does. *)
Fixpoint iterencode (cls : encoder) (depth : nat) : value -> result json :=
  encode_with cls
    match depth with
    | O => fun _ => Raise RecursionError
    | S d => iterencode cls d
    end.

Definition recursion_limit : nat := 1000.

(** [json.dumps(obj, cls=cls)]; the text it returns is its document. *)
Definition json_dumps (obj : value) (cls : encoder) : result json :=
  iterencode cls recursion_limit obj.

(** ** pydantic (v1): field types and [parse_obj]

    What the module relies on: fields are validated in declaration order;
    a field's type validator runs first, then the class's validators for
    that field in the order they are written, stopping at the first that
    fails; a [ValueError], [TypeError] or [AssertionError] raised while
    validating a field becomes an entry of the [ValidationError], any other
    exception leaves [parse_obj] as it is. *)

Inductive model : Type :=
| OrderedPairModel
| OrderedTripleModel
| DataFrameModel
| MatrixModel
| GrayscaleModel
| ScalarModel
| ImageModel.

Definition model_name (cls : model) : string :=
  match cls with
  | OrderedPairModel => "OrderedPairModel"
  | OrderedTripleModel => "OrderedTripleModel"
  | DataFrameModel => "DataFrameModel"
  | MatrixModel => "MatrixModel"
  | GrayscaleModel => "GrayscaleModel"
  | ScalarModel => "ScalarModel"
  | ImageModel => "ImageModel"
  end.

(** [except (ValueError, TypeError, AssertionError)]; pydantic's own errors
    derive from the first two. *)
Definition is_field_error (e : exn) : bool :=
  match e with
  | ValueError _ | TypeError _ | AssertionError _
  | StrError | DictError | NoneIsNotAllowedError | MissingError => true
  | _ => false
  end.

(** [str_validator]: a str, or a number turned into one (the text is not
    kept: nothing reads it). *)
Definition str_validator (v : value) : result unit :=
  if isinstance v t_str || isinstance v t_float || isinstance v t_int
  then Return tt
  else Raise StrError.

(** The key of one entry of [dict(iterable)]: [Some] for a str, [None] for
    any other hashable key. *)
Definition key_of (k : value) : result (option string) :=
  match k with
  | PStr s => Return (Some s)
  | PList _ | PDict _ | NdArray _ _ | DataFrame _ _ _ =>
      Raise (TypeError ("unhashable type: '" +:+ type_name k +:+ "'"))
  | _ => Return None
  end.

Definition bad_length : exn :=
  ValueError "dictionary update sequence element has the wrong length; 2 is required".

Definition pair_of (e : value) : result (option string * value) :=
  match e with
  | PList [k; x] => ko <- key_of k ;; Return (ko, x)
  | PList _ => Raise bad_length
  | PStr (String a (String b EmptyString)) =>
      Return (Some (String a EmptyString), PStr (String b EmptyString))
  | PStr _ => Raise bad_length
  | PDict [(k1, _); (k2, _)] => Return (Some k1, PStr k2)
  | PDict _ => Raise bad_length
  | NdArray _ _ | DataFrame _ _ _ | PILImage _ _ _ _ =>
      Raise (NotModelled "dict() over an array, a frame or an image")
  | _ => Raise (TypeError "cannot convert dictionary update sequence element to a sequence")
  end.

(** The entries of [dict(v)] for a [v] that is not a dict, in order. *)
Definition dict_items (v : value) : result (list (option string * value)) :=
  match v with
  | PList l => mapR pair_of l
  | PStr EmptyString => Return []
  | PStr _ => Raise bad_length
  | PDict d => Return (map (fun kv => (Some (fst kv), snd kv)) d)
  | NdArray _ _ | DataFrame _ _ _ | PILImage _ _ _ _ =>
      Raise (NotModelled "dict() over an array, a frame or an image")
  | _ => Raise (TypeError ("'" +:+ type_name v +:+ "' object is not iterable"))
  end.

(** The entries under str keys; no lookup of this module sees the others. *)
Fixpoint str_entries (l : list (option string * value)) : list (string * value) :=
  match l with
  | [] => []
  | (Some k, v) :: r => (k, v) :: str_entries r
  | (None, _) :: r => str_entries r
  end.

Definition to_DictError {A : Type} (c : result A) : result A :=
  match c with
  | Raise (TypeError _) | Raise (ValueError _) => Raise DictError
  | _ => c
  end.

(** [dict_validator]: a dict as it is, otherwise [dict(v)]. *)
Definition dict_validator (v : value) : result value :=
  match v with
  | PDict _ => Return v
  | _ =>
      items <- to_DictError (dict_items v) ;;
      Return (PDict (dict_of_pairs (str_entries items)))
  end.

(** *** The validators of the seven models *)

Definition tag (cls : model) : string :=
  match cls with
  | OrderedPairModel => "OrderedPair"
  | OrderedTripleModel => "OrderedTriple"
  | DataFrameModel => "DataFrame"
  | MatrixModel => "Matrix"
  | GrayscaleModel => "Grayscale"
  | ScalarModel => "Scalar"
  | ImageModel => "Image"
  end.

(** [assert dc["type"] == "<tag>", "dataContainer type does not match."] *)
Definition type_must_match (cls : model) (dc : value) : result value :=
  t <- getitem dc "type" ;;
  py_assert (eq_str t (tag cls)) "dataContainer type does not match." ;;;
  Return dc.

(** [assert "<key>" in dc, 'dataContainer does not contain "<key>" dataset.'] *)
Definition assert_in (key : string) (dc : value) : result unit :=
  b <- contains key dc ;;
  py_assert b ("dataContainer does not contain " +:+ quoted key +:+ " dataset.").

(** [assert isinstance(dc["<key>"], list), '"<key>" dataset is not a list'] *)
Definition assert_list (key : string) (dc : value) : result unit :=
  v <- getitem dc key ;;
  py_assert (isinstance v t_list) (quoted key +:+ " dataset is not a list").

Definition keys_must_match (cls : model) (dc : value) : result value :=
  match cls with
  | OrderedPairModel =>
      assert_in "x" dc ;;;
      assert_in "y" dc ;;;
      assert_list "x" dc ;;;
      assert_list "y" dc ;;;
      Return dc
  | OrderedTripleModel =>
      assert_in "x" dc ;;;
      assert_in "y" dc ;;;
      assert_in "z" dc ;;;
      assert_list "x" dc ;;;
      assert_list "y" dc ;;;
      assert_list "z" dc ;;;
      Return dc
  | DataFrameModel =>
      assert_in "m" dc ;;;
      m <- getitem dc "m" ;;
      py_assert (isinstance m t_dict)
        (quoted "m" +:+ " dataset is not a list, type: " +:+ type_repr m) ;;;
      Return dc
  | MatrixModel | GrayscaleModel =>
      assert_in "m" dc ;;;
      assert_list "m" dc ;;;
      Return dc
  | ScalarModel =>
      assert_in "c" dc ;;;
      c <- getitem dc "c" ;;
      py_assert (isinstance c t_float || isinstance c t_int)
        (quoted "c" +:+ " dataset is not a float or int") ;;;
      Return dc
  | ImageModel =>
      assert_in "r" dc ;;;
      assert_in "g" dc ;;;
      assert_in "b" dc ;;;
      assert_list "r" dc ;;;
      assert_list "g" dc ;;;
      assert_list "b" dc ;;;
      Return dc
  end.

(** *** Fields *)

Definition errors := list (string * exn).

(** Run a field's validators in order on the value; the first failure is
    the field's error. *)
Fixpoint apply_validators (loc : string) (vs : list (value -> result value))
    (v : value) : result errors :=
  match vs with
  | [] => Return []
  | f :: r =>
      match f v with
      | Return v' => apply_validators loc r v'
      | Raise e => if is_field_error e then Return [(loc, e)] else Raise e
      end
  end.

(** A required field: missing, [None], or validated. *)
Definition required (loc : string) (vs : list (value -> result value))
    (obj : list (string * value)) : result errors :=
  match dict_get obj loc with
  | None => Return [(loc, MissingError)]
  | Some PNone => Return [(loc, NoneIsNotAllowedError)]
  | Some v => apply_validators loc vs v
  end.

Definition str_field (v : value) : result value := str_validator v ;;; Return v.

(** [DefaultModel]'s seven fields in order, then the subclass's
    [data: Optional[DataC]], which accepts anything. *)
Definition validate_model (cls : model) (obj : list (string * value)) : result errors :=
  e1 <- required "ref" [str_field] obj ;;
  e2 <- required "dataContainer"
          [dict_validator; type_must_match cls; keys_must_match cls] obj ;;
  e3 <- required "metadata" [dict_validator] obj ;;
  e4 <- required "workspaceId" [str_field] obj ;;
  e5 <- required "privacy" [str_field] obj ;;
  e6 <- required "location" [str_field] obj ;;
  e7 <- required "note" [str_field] obj ;;
  Return (e1 ++ e2 ++ e3 ++ e4 ++ e5 ++ e6 ++ e7).

Definition all_str_keys (l : list (option string * value)) : bool :=
  forallb (fun kv => match fst kv with Some _ => true | None => false end) l.

(** [cls.parse_obj(obj)]; the instance it returns is dropped by its only
    caller, so success is [tt]. *)
Definition parse_obj (cls : model) (obj : value) : result unit :=
  fields <-
    match obj with
    | PDict d => Return d
    | _ =>
        match dict_items obj with
        | Return items =>
            if all_str_keys items then Return (dict_of_pairs (str_entries items))
            else Raise (TypeError "keywords must be strings")
        | Raise (TypeError _) | Raise (ValueError _) =>
            Raise (ValidationError (model_name cls)
                     [("__root__",
                       TypeError (model_name cls +:+ " expected dict not " +:+ type_name obj))])
        | Raise e => Raise e
        end
    end ;;
  errs <- validate_model cls fields ;;
  match errs with
  | [] => Return tt
  | _ => Raise (ValidationError (model_name cls) errs)
  end.

(** ** Printing *)

(** What [print] wrote: a string, or [str(e)] for an exception [e]. *)
Inductive printed : Type :=
| PrintStr (s : string)
| PrintExn (e : exn).

Definition stdout := list printed.

Definition M (A : Type) : Type := stdout -> stdout * result A.

Definition retM {A : Type} (a : A) : M A := fun out => (out, Return a).

Definition raiseM {A : Type} (e : exn) : M A := fun out => (out, Raise e).

Definition lift {A : Type} (c : result A) : M A := fun out => (out, c).

Definition print (p : printed) : M unit := fun out => (out ++ [p], Return tt).

Definition bindM {A B : Type} (c : M A) (k : A -> M B) : M B :=
  fun out =>
    match c out with
    | (out', Return a) => k a out'
    | (out', Raise e) => (out', Raise e)
    end.

Notation "x <-- c ;; k" := (bindM c (fun x => k))
  (at level 100, c at next level, right associativity) : py_scope.
Notation "c ;;;; k" := (bindM c (fun _ => k))
  (at level 100, right associativity) : py_scope.

(** ** [check_deserialize] *)

(** [try: cls.parse_obj(response)  except ValidationError as e: print(e)] *)
Definition try_parse_obj (cls : model) (response : value) : M unit :=
  match parse_obj cls response with
  | Return _ => retM tt
  | Raise (ValidationError name errs) => print (PrintExn (ValidationError name errs))
  | Raise e => raiseM e
  end.

Definition check_deserialize (response : value) : M unit :=
  dc <-- lift (getitem response "dataContainer") ;;
  dc_type <-- lift (getitem dc "type") ;;
  if eq_str dc_type "OrderedPair" then try_parse_obj OrderedPairModel response
  else if eq_str dc_type "OrderedTriple" then try_parse_obj OrderedTripleModel response
  else if eq_str dc_type "DataFrame" then try_parse_obj DataFrameModel response
  else if eq_str dc_type "Matrix" then try_parse_obj MatrixModel response
  else if eq_str dc_type "Grayscale" then try_parse_obj GrayscaleModel response
  else if eq_str dc_type "Scalar" then try_parse_obj ScalarModel response
  else if eq_str dc_type "Image" then try_parse_obj ImageModel response
  else retM tt.

(** ** numpy: arrays from values, channels, stacking, [uint8] *)

Definition ndarray : Type := list nat * list value.

(** A Python number as the numpy scalar an array stores it as. *)
Definition np_scalar (x : value) : value :=
  match x with
  | PInt z => NpInteger z
  | PFloat f => NpFloating float64 f
  | _ => x
  end.

Definition shape_eqb (s1 s2 : list nat) : bool :=
  bool_decide (s1 = s2).

(** [np.asarray(v)]: an array as it is; nested lists of one shape as the
    array of that shape (a ragged nesting is refused); an image as its
    height x width x bands array (height x width for a single band); a
    frame is left out; anything else is a 0-d array holding the value.
    Mixed int and float items are kept as they are (numpy would turn the
    ints into floats). *)
Fixpoint np_asarray (v : value) : result ndarray :=
  match v with
  | NdArray shape items => Return (shape, items)
  | PList l =>
      subs <- mapR np_asarray l ;;
      match subs with
      | [] => Return ([0], [])
      | (s, _) :: _ =>
          if forallb (fun a => shape_eqb (fst a) s) subs
          then Return (length l :: s, concat (map snd subs))
          else Raise (ValueError "setting an array element with a sequence. The requested array has an inhomogeneous shape")
      end
  | PILImage mode height width pixels =>
      let bands := match pixels with p :: _ => length p | [] => 0 end in
      Return (if (bands =? 1)%nat then [height; width] else [height; width; bands],
              map NpInteger (concat pixels))
  | DataFrame _ _ _ => Raise (NotModelled "np.asarray of a DataFrame")
  | _ => Return ([], [np_scalar v])
  end.

(** [a[:, :, k]] *)
Definition channel (a : ndarray) (k : nat) : result value :=
  match fst a with
  | h :: w :: c :: rest =>
      if (k <? c)%nat then
        let p := prod_list rest in
        Return (NdArray (h :: w :: rest)
                  (concat (map (fun block => take p (drop (k * p) block))
                               (chunks (h * w) (c * p) (snd a)))))
      else Raise (IndexError "index is out of bounds for axis 2")
  | _ => Raise (IndexError "too many indices for array")
  end.

(** [a.shape[i]] *)
Definition shape_at (a : ndarray) (i : nat) : result nat :=
  match fst a !! i with
  | Some n => Return n
  | None => Raise (IndexError "tuple index out of range")
  end.

(** The items of [n] blocks of [p] items taken in turn from each plane. *)
Fixpoint interleave (n p : nat) (planes : list (list value)) : list value :=
  match n with
  | O => []
  | S n' => concat (map (take p) planes) ++ interleave n' p (map (drop p) planes)
  end.

(** [np.stack(arrays, axis=2)] *)
Definition np_stack_axis2 (arrays : list value) : result ndarray :=
  arrs <- mapR np_asarray arrays ;;
  match arrs with
  | [] => Raise (ValueError "need at least one array to stack")
  | (s, _) :: _ =>
      if forallb (fun a => shape_eqb (fst a) s) arrs then
        match s with
        | h :: w :: rest =>
            Return (h :: w :: length arrs :: rest,
                    interleave (h * w) (prod_list rest) (map snd arrs))
        | _ => Raise AxisError
        end
      else Raise (ValueError "all input arrays must have the same shape")
  end.

(** The integer part of a finite float. *)
Definition trunc (f : spec_float) : option Z :=
  match f with
  | S754_zero _ => Some 0%Z
  | S754_finite s m e =>
      let a := if (0 <=? e)%Z then (Z.pos m * 2 ^ e)%Z else (Z.pos m / 2 ^ (- e))%Z in
      Some (if s then (- a)%Z else a)
  | _ => None
  end.

(** One item cast to [uint8]: wrap-around modulo 256 (for a float, of its
    integer part). *)
Definition uint8_item (x : value) : result value :=
  match x with
  | NpInteger z | PInt z => Return (NpInteger (z mod 256))
  | PBool b => Return (NpInteger (if b then 1 else 0))
  | NpFloating _ f | PFloat f =>
      match trunc f with
      | Some z => Return (NpInteger (z mod 256))
      | None => Raise (NotModelled "uint8 of nan or inf")
      end
  | _ => Raise (NotModelled "uint8 of an object that is not a number")
  end.

(** [np.uint8(a)] *)
Definition np_uint8 (a : ndarray) : result ndarray :=
  items <- mapR uint8_item (snd a) ;;
  Return (fst a, items).

(** ** PIL: [Image.fromarray], [Image.convert] *)

Definition band (x : value) : Z :=
  match x with
  | NpInteger z => z
  | _ => 0%Z
  end.

(** [Image.fromarray(a)] for a [uint8] array of 3 or 4 bands. *)
Definition Image_fromarray (a : ndarray) : result value :=
  match fst a with
  | [h; w; 3] => Return (PILImage "RGB" h w (chunks (h * w) 3 (map band (snd a))))
  | [h; w; 4] => Return (PILImage "RGBA" h w (chunks (h * w) 4 (map band (snd a))))
  | _ => Raise (NotModelled "Image.fromarray on another shape")
  end.

(** [img.convert(mode)] to the mode the image already has. *)
Definition convert (img : value) (mode : string) : result value :=
  match img with
  | PILImage m h w px =>
      if String.eqb m mode then Return img
      else Raise (NotModelled "Image.convert to another mode")
  | _ => Raise (AttributeError "convert")
  end.

(** ** pandas: the [DataFrame] constructor, [drop] *)

Definition RangeIndex (n : nat) : list label :=
  map (fun i => LInt (Z.of_nat i)) (seq 0 n).

Definition is_list (v : value) : bool := isinstance v t_list.

Definition is_scalar (v : value) : bool :=
  match v with
  | PNone | PBool _ | PInt _ | PFloat _ | PStr _ | NpInteger _ | NpFloating _ _ => true
  | _ => false
  end.

Definition list_len (v : value) : option nat :=
  match v with
  | PList l => Some (length l)
  | _ => None
  end.

(** The cells of one column of [n] rows: a list as it is, a scalar repeated. *)
Definition column_cells (n : nat) (v : value) : list value :=
  match v with
  | PList l => l
  | _ => replicate n v
  end.

(** The [j]-th cell of every row. *)
Definition column_of_rows (rows : list value) (j : nat) : list value :=
  map (fun r => match r with
                | PList l => from_option id PNone (l !! j)
                | _ => PNone
                end) rows.

(** [pd.DataFrame(data)]:
    - a str or a number: refused;
    - [None], an empty dict, an empty list: the empty frame;
    - a dict of lists and scalars: one column per key, the lists of one
      length, the scalars repeated, not all scalars;
    - a list of rows of one length: cells by position; a list of scalars:
      one column;
    - a frame: the same frame.
    Dicts of dicts, lists of dicts, ragged rows and arrays are left out. *)
Definition pd_DataFrame (data : value) : result value :=
  match data with
  | PStr _ | PBool _ | PInt _ | PFloat _ | NpInteger _ | NpFloating _ _ =>
      Raise (ValueError "DataFrame constructor not properly called!")
  | PNone | PDict [] | PList [] => Return (DataFrame [] [] [])
  | PDict d =>
      if forallb (fun kv => is_list (snd kv) || is_scalar (snd kv)) d then
        match omap (fun kv => list_len (snd kv)) d with
        | [] => Raise (ValueError "If using all scalar values, you must pass an index")
        | n :: lens =>
            if forallb (Nat.eqb n) lens then
              Return (DataFrame (map (fun kv => LStr (fst kv)) d) (RangeIndex n)
                        (map (fun kv => column_cells n (snd kv)) d))
            else Raise (ValueError "All arrays must be of the same length")
        end
      else Raise (NotModelled "DataFrame from a dict with other values")
  | PList rows =>
      if forallb is_scalar rows then
        Return (DataFrame [LInt 0] (RangeIndex (length rows)) [rows])
      else if forallb is_list rows then
        match omap list_len rows with
        | [] => Return (DataFrame [] [] [])
        | n :: lens =>
            if forallb (Nat.eqb n) lens then
              Return (DataFrame (RangeIndex n) (RangeIndex (length rows))
                        (map (column_of_rows rows) (seq 0 n)))
            else Raise (NotModelled "DataFrame from ragged rows")
        end
      else Raise (NotModelled "DataFrame from a list with other items")
  | DataFrame _ _ _ => Return data
  | _ => Raise (NotModelled "DataFrame from another object")
  end.

Definition label_eqb (a b : label) : bool :=
  match a, b with
  | LInt x, LInt y => (x =? y)%Z
  | LStr x, LStr y => String.eqb x y
  | _, _ => false
  end.

(** The columns whose label is not [name], with their cells. *)
Fixpoint without_column (name : label) (columns : list label) (data : list (list value))
  : list label * list (list value) :=
  match columns, data with
  | c :: cs, col :: cols =>
      let (cs', cols') := without_column name cs cols in
      if label_eqb c name then (cs', cols') else (c :: cs', col :: cols')
  | _, _ => ([], [])
  end.

(** [df.drop(columns=[name])] *)
Definition drop_column (df : value) (name : string) : result value :=
  match df with
  | DataFrame columns index data =>
      if existsb (label_eqb (LStr name)) columns then
        let (cs, cols) := without_column (LStr name) columns data in
        Return (DataFrame cs index cols)
      else Raise (KeyError name)
  | _ => Raise (AttributeError "drop")
  end.

(** ** [float(v)] *)

Definition float_of_Z (z : Z) : spec_float := binary_normalize 53 1024 z 0 false.

Section Client.

(** What the client is given from outside the module:
    - [to_json]: pandas's [DataFrame.to_json()], a str;
    - [float_of_str]: the float a str spells, if it spells one;
    - [request_text]: [requests.request(method, url, headers=self.headers).text],
      the body the service answers with, or the transport's exception. *)
Variable to_json : value -> string.
Variable float_of_str : string -> option spec_float.
Variable request_text : string -> string -> result text.

Definition float_ (v : value) : result spec_float :=
  match v with
  | PFloat f | NpFloating _ f => Return f
  | PInt z | NpInteger z =>
      match float_of_Z z with
      | S754_infinity _ => Raise OverflowError
      | f => Return f
      end
  | PBool b => Return (float_of_Z (if b then 1 else 0))
  | PStr s =>
      match float_of_str s with
      | Some f => Return f
      | None => Raise (ValueError ("could not convert string to float: '" +:+ s +:+ "'"))
      end
  | NdArray _ _ => Raise (NotModelled "float of an array")
  | _ => Raise (TypeError ("float() argument must be a string or a real number, not '"
                           +:+ type_name v +:+ "'"))
  end.

(** ** [FlojoyCloud] *)

(** [self.valid_types] *)
Definition valid_types : list string :=
  ["OrderedPair"; "OrderedTriple"; "DataFrame"; "Grayscale"; "Matrix"; "Scalar"; "Image"].

(** [dc_type in self.valid_types] *)
Definition is_valid_type (dc_type : string) : bool :=
  existsb (String.eqb dc_type) valid_types.

(** [isinstance(data, dict) and key in data] *)
Definition is_dict_with (key : string) (data : value) : bool :=
  isinstance data t_dict &&
  match contains key data with
  | Return b => b
  | Raise _ => false
  end.

(** [data.to_json()] *)
Definition call_to_json (data : value) : result value :=
  match data with
  | DataFrame _ _ _ => Return (PStr (to_json data))
  | _ => Raise (AttributeError ("'" +:+ type_name data +:+ "' object has no attribute 'to_json'"))
  end.

(** [{"data": {"type": dc_type, ...fields}}] *)
Definition envelope (dc_type : string) (fields : list (string * value)) : value :=
  PDict [("data", PDict (("type", PStr dc_type) :: fields))].

(** [create_payload(self, data, dc_type)].  [payload] is a local that only
    the matching case binds: [None] while it is unbound. *)
Definition create_payload (data : value) (dc_type : string) : M json :=
  lift (py_assert (is_valid_type dc_type)
          ("Type " +:+ dc_type +:+ " not supported. Check capitals (e.g. OrderedPair).")) ;;;;
  payload <--
    (if String.eqb dc_type "OrderedPair" then
       if is_dict_with "x" data then
         lift (x <- getitem data "x" ;;
               y <- getitem data "y" ;;
               p <- json_dumps (envelope "OrderedPair" [("x", x); ("y", y)]) NumpyEncoder ;;
               Return (Some p))
       else
         print (PrintStr "For ordered pair type, data must be in dictionary form with keys 'x' and 'y'") ;;;;
         raiseM (TypeError EmptyString)
     else retM None) ;;
  payload <--
    (if String.eqb dc_type "OrderedTriple" then
       if is_dict_with "x" data then
         lift (x <- getitem data "x" ;;
               y <- getitem data "y" ;;
               z <- getitem data "z" ;;
               p <- json_dumps (envelope "OrderedTriple" [("x", x); ("y", y); ("z", z)])
                      NumpyEncoder ;;
               Return (Some p))
       else
         print (PrintStr "For ordered triple type, data must be in dictionary form with keys 'x', 'y', and 'z'") ;;;;
         raiseM (TypeError EmptyString)
     else if String.eqb dc_type "DataFrame" then
       lift (data <- call_to_json data ;;
             p <- json_dumps (envelope "DataFrame" [("m", data)]) JSONEncoder ;;
             Return (Some p))
     else if String.eqb dc_type "Matrix" then
       lift (p <- json_dumps (envelope "Matrix" [("m", data)]) NumpyEncoder ;;
             Return (Some p))
     else if String.eqb dc_type "Grayscale" then
       lift (p <- json_dumps (envelope "Grayscale" [("m", data)]) NumpyEncoder ;;
             Return (Some p))
     else if String.eqb dc_type "Scalar" then
       lift (p <- json_dumps (envelope "Scalar" [("c", data)]) NumpyEncoder ;;
             Return (Some p))
     else if String.eqb dc_type "Image" then
       lift (RGB_img <- np_asarray data ;;
             red_channel <- channel RGB_img 0 ;;
             green_channel <- channel RGB_img 1 ;;
             blue_channel <- channel RGB_img 2 ;;
             n <- shape_at RGB_img 2 ;;
             let alpha_channel := if (n =? 4)%nat then channel RGB_img 3 else Return PNone in
             alpha_channel <- alpha_channel ;;
             p <- json_dumps (envelope "Image" [("r", red_channel); ("g", green_channel);
                                                ("b", blue_channel); ("a", alpha_channel)])
                    NumpyEncoder ;;
             Return (Some p))
     else retM payload) ;;
  match payload with
  | Some p => retM p
  | None => raiseM (UnboundLocalError "payload")
  end.

(** [fetch_dc(self, dc_id)] *)
Definition fetch_dc (dc_id : string) : M value :=
  let url := "https://cloud.flojoy.ai/api/v1/dcs/" +:+ dc_id in
  body <-- lift (request_text "GET" url) ;;
  response <-- lift (json_loads body) ;;
  check_deserialize response ;;;;
  retM response.

(** [to_python(self, dc)]; falling off the end of the [match] returns
    [None]. *)
Definition to_python (dc : value) : result value :=
  container <- getitem dc "dataContainer" ;;
  dc_type <- getitem container "type" ;;
  if eq_str dc_type "OrderedPair" || eq_str dc_type "OrderedTriple" then
    container <- getitem dc "dataContainer" ;;
    df <- pd_DataFrame container ;;
    drop_column df "type"
  else if eq_str dc_type "DataFrame" || eq_str dc_type "Matrix" || eq_str dc_type "Grayscale" then
    container <- getitem dc "dataContainer" ;;
    m <- getitem container "m" ;;
    pd_DataFrame m
  else if eq_str dc_type "Scalar" then
    container <- getitem dc "dataContainer" ;;
    c <- getitem container "c" ;;
    f <- float_ c ;;
    Return (PFloat f)
  else if eq_str dc_type "Image" then
    image <- getitem dc "dataContainer" ;;
    r <- getitem image "r" ;;
    g <- getitem image "g" ;;
    b <- getitem image "b" ;;
    has_a <- contains "a" image ;;
    if (has_a : bool) then
      a <- getitem image "a" ;;
      img_combined <- np_stack_axis2 [r; g; b; a] ;;
      bytes <- np_uint8 img_combined ;;
      img <- Image_fromarray bytes ;;
      convert img "RGBA"
    else
      img_combined <- np_stack_axis2 [r; g; b] ;;
      bytes <- np_uint8 img_combined ;;
      img <- Image_fromarray bytes ;;
      convert img "RGB"
  else Return PNone.

End Client.

(** ** The transport: requests sent, answers received *)

(** One call of [requests.request(method, url, headers=self.headers,
    data=data)]; the headers are the client's and the same in every call. *)
Record request : Type := Request {
  req_method : string;
  req_url : string;
  req_data : option json
}.

(** What a call has done so far: what it printed and what it sent. *)
Record world : Type := World {
  w_out : stdout;
  w_sent : list request
}.

Definition W (A : Type) : Type := world -> world * result A.

Definition retW {A : Type} (a : A) : W A := fun w => (w, Return a).

Definition raiseW {A : Type} (e : exn) : W A := fun w => (w, Raise e).

Definition liftR {A : Type} (c : result A) : W A := fun w => (w, c).

(** A computation that only prints, run in the world. *)
Definition liftM {A : Type} (c : M A) : W A :=
  fun w => let (out', r) := c (w_out w) in (World out' (w_sent w), r).

Definition bindW {A B : Type} (c : W A) (k : A -> W B) : W B :=
  fun w =>
    match c w with
    | (w', Return a) => k a w'
    | (w', Raise e) => (w', Raise e)
    end.

Notation "x <~ c ;; k" := (bindW c (fun x => k))
  (at level 100, c at next level, right associativity) : py_scope.

Section Transport.

(** - [to_json]: pandas's [DataFrame.to_json()];
    - [service]: the body the service answers a request with (or the
      exception the transport raises), given the requests sent before. *)
Variable to_json : value -> string.
Variable service : list request -> request -> result text.

(** [requests.request(method, url, headers=self.headers, data=data).text] *)
Definition requests_request (method url : string) (data : option json) : W text :=
  fun w =>
    let r := Request method url data in
    (World (w_out w) (w_sent w ++ [r]), service (w_sent w) r).

(** [store_dc(self, data, dc_type)] *)
Definition store_dc (data : value) (dc_type : string) : W value :=
  let url := "https://cloud.flojoy.ai/api/v1/dcs/" in
  payload <~ liftM (create_payload to_json data dc_type) ;;
  response <~ requests_request "POST" url (Some payload) ;;
  liftR (json_loads response).

(** [try: response = response["data"]  except KeyError: print(...)] *)
Definition data_or_response (response : value) : W value :=
  match getitem response "data" with
  | Return v => retW v
  | Raise (KeyError _) =>
      _ <~ liftM (print (PrintStr "Size larger than the number of DataContainers.")) ;;
      retW response
  | Raise e => raiseW e
  end.

(** [list_dcs(self, size=10)] *)
Definition list_dcs (size : Z) : W value :=
  let url := "https://cloud.flojoy.ai/api/v1/dcs/?inbox=true&size=" +:+ pretty size in
  response <~ requests_request "GET" url None ;;
  response <~ liftR (json_loads response) ;;
  response <~ data_or_response response ;;
  retW response.

(** [create_measurement(self, name, privacy="private")] *)
Definition create_measurement (name privacy : value) : W value :=
  let url := "https://cloud.flojoy.ai/api/v1/measurements" in
  payload <~ liftR (json_dumps (PDict [("name", name); ("privacy", privacy)]) JSONEncoder) ;;
  response <~ requests_request "POST" url (Some payload) ;;
  response <~ liftR (json_loads response) ;;
  retW response.

(** [list_measurements(self, size=10)] *)
Definition list_measurements (size : Z) : W value :=
  let url := "https://cloud.flojoy.ai/api/v1/measurements/?size=" +:+ pretty size in
  response <~ requests_request "GET" url None ;;
  response <~ liftR (json_loads response) ;;
  response <~ data_or_response response ;;
  retW response.

(** [get_measurement(self, meas_id)] *)
Definition get_measurement (meas_id : string) : W value :=
  let url := "https://cloud.flojoy.ai/api/v1/measurements/" +:+ meas_id in
  response <~ requests_request "GET" url None ;;
  response <~ liftR (json_loads response) ;;
  retW response.

End Transport.

(** * Definitions used to state the properties *)

(** [f] applied to the value of an entry. *)
Definition on_values {A B : Type} (f : A -> B) (kv : string * A) : string * B :=
  (fst kv, f (snd kv)).

(** A call that returns, or raises what pydantic turns into a field error. *)
Definition returns_or_field_error {A : Type} (c : result A) : Prop :=
  match c with
  | Return _ => True
  | Raise e => is_field_error e = true
  end.

(** A call that returns, or raises a [TypeError] or a [ValueError]. *)
Definition returns_or_type_value_error {A : Type} (c : result A) : Prop :=
  match c with
  | Return _ | Raise (TypeError _) | Raise (ValueError _) => True
  | _ => False
  end.

(** The address [fetch_dc] asks for. *)
Definition dcs_url (dc_id : string) : string :=
  "https://cloud.flojoy.ai/api/v1/dcs/" +:+ dc_id.


(** A response whose tag is none of the seven. *)
Definition unknown_kind_document : json :=
  JObject [("dataContainer", JObject [("type", JString "Vector"); ("v", JArray [JInt 1])])].

(** A complete response around a container. *)
Definition response_document (container : json) : json :=
  JObject [("ref", JString "r1"); ("dataContainer", container);
           ("metadata", JObject []); ("workspaceId", JString "w1");
           ("privacy", JString "private"); ("location", JString "here");
           ("note", JString EmptyString)].

(** A container tagged OrderedTriple with its three lists. *)
Definition triple_container : json :=
  JObject [("type", JString "OrderedTriple");
           ("x", JArray [JInt 1]); ("y", JArray [JInt 2]); ("z", JArray [JInt 3])].

(** A container tagged Scalar whose ["c"] is a string. *)
Definition string_scalar_container : json :=
  JObject [("type", JString "Scalar"); ("c", JString "notanumber")].

(** The binary64 float nearest to 3.14. *)
Definition pi_ish : spec_float := S754_finite false 7070651414971679 (-51).

(** The container a payload carries under ["data"]. *)
Definition payload_container (payload : json) : option value :=
  match decode payload with
  | PDict d => dict_get d "data"
  | _ => None
  end.

(** A frame of one column and two rows. *)
Definition small_frame : value :=
  DataFrame [LStr "a"] [LInt 0; LInt 1] [[PInt 1; PInt 2]].

(** The offset of a multi-index in row-major order. *)
Fixpoint ravel (shape idx : list nat) : nat :=
  match shape, idx with
  | _ :: rest, i :: idx' => i * prod_list rest + ravel rest idx'
  | _, _ => 0
  end.

(** [v[i0][i1]...] in nested lists. *)
Fixpoint nested_get (v : value) (idx : list nat) : option value :=
  match idx with
  | [] => Some v
  | i :: idx' =>
      match v with
      | PList l => x ← l !! i; nested_get x idx'
      | _ => None
      end
  end.

(** A numpy number. *)
Definition numeric (x : value) : Prop :=
  match x with
  | NpInteger _ | NpFloating _ _ => True
  | _ => False
  end.

(** The JSON number a numpy number is written as. *)
Definition number (x : value) : json :=
  match x with
  | NpInteger z => JInt z
  | NpFloating _ f => JFloat f
  | _ => JNull
  end.

(** The JSON of the 2-d array of channel [k]: rows of numbers. *)
Definition plane (items : list value) (h w c k : nat) : json :=
  JArray (map (fun i =>
                 JArray (map (fun j => number (nth ((i * w + j) * c + k) items PNone))
                             (seq 0 w)))
              (seq 0 h)).

(** The response that carries a payload's container: the ["data"] envelope
    re-keyed as a ["dataContainer"]. *)
Definition as_container (payload : json) : result value :=
  bind (getitem (decode payload) "data") (fun container =>
  Return (PDict [("dataContainer", container)])).

(** [to_python] of the payload [create_payload] builds. *)
Definition round_trip (to_json : value -> string) (float_of_str : string -> option spec_float)
    (data : value) (dc_type : string) : result value :=
  match create_payload to_json data dc_type [] with
  | (_, Return payload) => bind (as_container payload) (to_python float_of_str)
  | (_, Raise e) => Raise e
  end.

(** Sample inputs: a 2x2 image of 3 channels, one of 4, an ordered pair,
    a 2x2 matrix. *)
Definition rgb_2x2 : value :=
  NdArray [2; 2; 3] (map NpInteger [255; 0; 0; 0; 255; 0; 0; 0; 255; 10; 20; 30]%Z).

Definition rgba_2x2 : value :=
  NdArray [2; 2; 4]
    (map NpInteger [255; 0; 0; 255; 0; 255; 0; 255; 0; 0; 255; 128; 10; 20; 30; 0]%Z).

Definition xy_pair : value :=
  PDict [("x", PList [PInt 1; PInt 2; PInt 3]); ("y", PList [PInt 4; PInt 5; PInt 6])].

Definition matrix_2x2 : value := PList [PList [PInt 1; PInt 2]; PList [PInt 3; PInt 4]].

(** ** For the further properties *)

(** The addresses the client calls. *)
Definition store_url : string := "https://cloud.flojoy.ai/api/v1/dcs/".

Definition list_dcs_url (size : Z) : string :=
  "https://cloud.flojoy.ai/api/v1/dcs/?inbox=true&size=" +:+ pretty size.

Definition measurements_url : string := "https://cloud.flojoy.ai/api/v1/measurements".

Definition list_measurements_url (size : Z) : string :=
  "https://cloud.flojoy.ai/api/v1/measurements/?size=" +:+ pretty size.

Definition measurement_url (meas_id : string) : string :=
  "https://cloud.flojoy.ai/api/v1/measurements/" +:+ meas_id.

(** The world after one more request. *)
Definition after_request (w : world) (r : request) : world :=
  World (w_out w) (w_sent w ++ [r]).

(** The line the two listing calls print. *)
Definition size_message : printed :=
  PrintStr "Size larger than the number of DataContainers.".



(** The lines [create_payload] prints before it raises [TypeError]. *)
Definition pair_message : printed :=
  PrintStr "For ordered pair type, data must be in dictionary form with keys 'x' and 'y'".

Definition triple_message : printed :=
  PrintStr "For ordered triple type, data must be in dictionary form with keys 'x', 'y', and 'z'".

(** The entry under [key] is there and is a list. *)
Definition has_list (d : list (string * value)) (key : string) : bool :=
  match dict_get d key with
  | Some v => isinstance v t_list
  | None => false
  end.

(** What [keys_must_match] of each model asks of a container. *)
Definition well_shaped (cls : model) (d : list (string * value)) : bool :=
  match cls with
  | OrderedPairModel => has_list d "x" && has_list d "y"
  | OrderedTripleModel => has_list d "x" && has_list d "y" && has_list d "z"
  | DataFrameModel =>
      match dict_get d "m" with
      | Some m => isinstance m t_dict
      | None => false
      end
  | MatrixModel | GrayscaleModel => has_list d "m"
  | ScalarModel =>
      match dict_get d "c" with
      | Some c => isinstance c t_float || isinstance c t_int
      | None => false
      end
  | ImageModel => has_list d "r" && has_list d "g" && has_list d "b"
  end.

(** A complete response around a container, as a dict. *)
Definition response_fields (container : value) : list (string * value) :=
  [("ref", PStr "r1"); ("dataContainer", container); ("metadata", PDict []);
   ("workspaceId", PStr "w1"); ("privacy", PStr "private"); ("location", PStr "here");
   ("note", PStr EmptyString)].

(** The five fields of a response that are strs. *)
Definition str_fields : list string :=
  ["ref"; "workspaceId"; "privacy"; "location"; "note"].

(** The JSON of a 2-d array: rows of numbers. *)
Definition matrix_json (items : list value) (h w : nat) : json :=
  JArray (map (fun i => JArray (map (fun j => number (nth (i * w + j) items PNone)) (seq 0 w)))
              (seq 0 h)).

(** The cells of a 2-d array by column, each column from the first row to
    the last. *)
Definition columns_of (items : list value) (h w : nat) : list (list value) :=
  map (fun j => map (fun i => item (nth (i * w + j) items PNone)) (seq 0 h)) (seq 0 w).


(** * Properties *)

(** ** Dictionaries and decoded documents *)

Lemma dict_get_map {A B : Type} (f : A -> B) (d : list (string * A)) (k : string) :
  dict_get (map (on_values f) d) k = f <$> dict_get d k.
Proof.
  induction d as [|[k' v] d IH]; simpl; [reflexivity|].
  destruct (String.eqb k' k); [reflexivity | exact IH].
Qed.

Lemma dict_set_map {A B : Type} (f : A -> B) (d : list (string * A)) (k : string) (v : A) :
  dict_set (map (on_values f) d) k (f v) = map (on_values f) (dict_set d k v).
Proof.
  induction d as [|[k' v'] d IH]; simpl; [reflexivity|].
  destruct (String.eqb k' k); simpl; [reflexivity | by rewrite IH].
Qed.

Lemma dict_of_pairs_map {A B : Type} (f : A -> B) (l : list (string * A)) :
  dict_of_pairs (map (on_values f) l) = map (on_values f) (dict_of_pairs l).
Proof.
  unfold dict_of_pairs.
  change (@nil (string * B)) with (map (on_values f) []).
  generalize (@nil (string * A)) as acc.
  induction l as [|[k v] l IH]; intros acc; simpl; [reflexivity|].
  rewrite dict_set_map. apply IH.
Qed.

(** Every entry of a decoded object is itself decoded. *)
Lemma decode_fields (j : json) (fields : list (string * value)) (k : string) (v : value) :
  decode j = PDict fields -> dict_get fields k = Some v -> exists j', v = decode j'.
Proof.
  destruct j; simpl; try discriminate.
  intros [= <-].
  change (map _ members) with (map (on_values decode) members).
  rewrite (dict_of_pairs_map decode), (dict_get_map decode).
  destruct (dict_get _ k) as [j'|]; simpl; [|discriminate].
  intros [= <-]. by exists j'.
Qed.


(** ** What validation can raise *)

Lemma key_of_decoded (j : json) : returns_or_type_value_error (key_of (decode j)).
Proof. destruct j; exact I. Qed.

Lemma pair_of_decoded (j : json) : returns_or_type_value_error (pair_of (decode j)).
Proof.
  destruct j as [| | | |s|l|m]; try exact I.
  - destruct s as [|a [|b [|c s]]]; exact I.
  - destruct l as [|k [|x [|y l]]]; try exact I.
    simpl. pose proof (key_of_decoded k) as Hk.
    destruct (key_of (decode k)) as [ko|e]; [exact I|].
    destruct e; try contradiction; exact I.
  - simpl. destruct (dict_of_pairs _) as [|[k1 v1] [|[k2 v2] [|kv d]]]; exact I.
Qed.

Lemma mapR_pair_of_decoded (l : list json) :
  returns_or_type_value_error (mapR pair_of (map decode l)).
Proof.
  induction l as [|j l IH]; simpl; [exact I|].
  pose proof (pair_of_decoded j) as Hj.
  destruct (pair_of (decode j)) as [p|e]; simpl.
  - destruct (mapR pair_of (map decode l)) as [ps|e]; simpl; [exact I | exact IH].
  - exact Hj.
Qed.

Lemma dict_items_decoded (j : json) : returns_or_type_value_error (dict_items (decode j)).
Proof.
  destruct j as [| | | |s|l|m]; try exact I.
  - destruct s; exact I.
  - apply mapR_pair_of_decoded.
Qed.

Lemma dict_validator_decoded (j : json) : returns_or_field_error (dict_validator (decode j)).
Proof.
  pose proof (dict_items_decoded j) as H.
  unfold dict_validator.
  destruct (decode j); try exact I;
    destruct (dict_items _) as [its|e]; simpl; try exact I;
    destruct e; try contradiction; reflexivity.
Qed.

Lemma str_field_outcome (v : value) : returns_or_field_error (str_field v).
Proof.
  unfold str_field, str_validator.
  destruct (_ || _); simpl; [exact I | reflexivity].
Qed.

(** A field with one validator that can only fail with a field error never
    makes [parse_obj] raise anything else. *)
Lemma required_single (loc : string) (f : value -> result value) (obj : list (string * value)) :
  (forall v, dict_get obj loc = Some v -> returns_or_field_error (f v)) ->
  exists errs, required loc [f] obj = Return errs.
Proof.
  intros Hf. unfold required.
  destruct (dict_get obj loc) as [v|] eqn:E; [|eauto].
  specialize (Hf v eq_refl).
  assert (exists errs, apply_validators loc [f] v = Return errs) as Hv.
  { simpl. destruct (f v) as [v'|e]; [eauto|]. simpl in Hf. rewrite Hf. eauto. }
  destruct v; eauto.
Qed.

Lemma required_str (loc : string) (obj : list (string * value)) :
  exists errs, required loc [str_field] obj = Return errs.
Proof. apply required_single. intros; apply str_field_outcome. Qed.

Lemma required_dict (loc : string) (j : json) (obj : list (string * value)) :
  decode j = PDict obj ->
  exists errs, required loc [dict_validator] obj = Return errs.
Proof.
  intros Hj. apply required_single. intros v Hv.
  destruct (decode_fields _ _ _ _ Hj Hv) as [j' ->].
  apply dict_validator_decoded.
Qed.

(** The errors of a whole model are those of its fields in order, around
    those of [dataContainer]. *)
Lemma validate_model_decoded (cls : model) (j : json) (obj : list (string * value))
    (e2 : errors) :
  decode j = PDict obj ->
  required "dataContainer" [dict_validator; type_must_match cls; keys_must_match cls] obj
    = Return e2 ->
  exists e1 e3, validate_model cls obj = Return (e1 ++ e2 ++ e3).
Proof.
  intros Hj H2. unfold validate_model. rewrite H2.
  destruct (required_str "ref" obj) as [e1 ->].
  destruct (required_dict "metadata" j obj Hj) as [e3 ->].
  destruct (required_str "workspaceId" obj) as [e4 ->].
  destruct (required_str "privacy" obj) as [e5 ->].
  destruct (required_str "location" obj) as [e6 ->].
  destruct (required_str "note" obj) as [e7 ->].
  simpl. exists e1, (e3 ++ e4 ++ e5 ++ e6 ++ e7). reflexivity.
Qed.

(** With an error on [dataContainer], [parse_obj] raises a
    [ValidationError] that lists it. *)
Lemma parse_obj_dataContainer_error (cls : model) (j : json) (obj : list (string * value))
    (e : exn) :
  decode j = PDict obj ->
  required "dataContainer" [dict_validator; type_must_match cls; keys_must_match cls] obj
    = Return [("dataContainer", e)] ->
  exists errs,
    parse_obj cls (decode j) = Raise (ValidationError (model_name cls) errs) /\
    In ("dataContainer", e) errs.
Proof.
  intros Hj H2.
  destruct (validate_model_decoded cls j obj _ Hj H2) as (e1 & e3 & Hv).
  exists (e1 ++ [("dataContainer", e)] ++ e3). split.
  - unfold parse_obj. rewrite Hj. simpl. rewrite Hv.
    destruct e1; reflexivity.
  - apply in_or_app. right. left. reflexivity.
Qed.

Ltac case_dict_get d :=
  repeat match goal with
         | |- context [dict_get d ?k] =>
             let E := fresh "E" in destruct (dict_get d k) eqn:E; cbn -[isinstance]
         end.

(** [keys_must_match] on a dict returns it or fails an assertion. *)
Lemma keys_must_match_outcome (cls : model) (d : list (string * value)) :
  keys_must_match cls (PDict d) = Return (PDict d) \/
  exists msg, keys_must_match cls (PDict d) = Raise (AssertionError msg).
Proof.
  destruct cls;
    unfold keys_must_match, assert_in, assert_list, contains, dict_contains, getitem, py_assert;
    cbn -[isinstance]; case_dict_get d; eauto;
    repeat match goal with
           | |- context [isinstance ?v ?t] => destruct (isinstance v t); cbn -[isinstance]
           end; eauto.
Qed.

(** The errors of the [dataContainer] field when it holds a dict with a
    ["type"] entry. *)
Lemma required_dataContainer (cls : model) (obj d : list (string * value)) (t : value) :
  dict_get obj "dataContainer" = Some (PDict d) ->
  dict_get d "type" = Some t ->
  required "dataContainer" [dict_validator; type_must_match cls; keys_must_match cls] obj
  = Return (if eq_str t (tag cls) then
              match keys_must_match cls (PDict d) with
              | Return _ => []
              | Raise e => [("dataContainer", e)]
              end
            else [("dataContainer", AssertionError "dataContainer type does not match.")]).
Proof.
  intros Hdc Ht. unfold required. rewrite Hdc. simpl.
  unfold type_must_match at 1. simpl. rewrite Ht. simpl.
  destruct (eq_str t (tag cls)); simpl; [|reflexivity].
  destruct (keys_must_match_outcome cls d) as [-> | [msg ->]]; reflexivity.
Qed.


(** ** [check_deserialize] and [fetch_dc] *)




(** C10.  When the tag of a decoded response is none of the seven, no case
    of [check_deserialize] matches: it prints nothing and returns, and
    [fetch_dc] hands the response back as decoded. *)
Theorem check_deserialize_ignores_unrecognized_tag
    (request_text : string -> string -> result text) (dc_id : string)
    (body : text) (response dc t : value) (out : stdout) :
  request_text "GET" (dcs_url dc_id) = Return body ->
  json_loads body = Return response ->
  getitem response "dataContainer" = Return dc ->
  getitem dc "type" = Return t ->
  (forall cls, t <> PStr (tag cls)) ->
  check_deserialize response out = (out, Return tt) /\
  fetch_dc request_text dc_id out = (out, Return response).
Proof.
  intros Hreq Hbody Hdc Ht Hnone.
  assert (forall cls, eq_str t (tag cls) = false) as Hne.
  { intros cls. destruct t; try reflexivity. simpl.
    destruct (String.eqb_spec s (tag cls)) as [->|]; [|reflexivity].
    destruct (Hnone cls eq_refl). }
  assert (check_deserialize response out = (out, Return tt)) as Hcheck.
  { unfold check_deserialize, bindM, lift. rewrite Hdc, Ht.
    pose proof (Hne OrderedPairModel) as H1. pose proof (Hne OrderedTripleModel) as H2.
    pose proof (Hne DataFrameModel) as H3. pose proof (Hne MatrixModel) as H4.
    pose proof (Hne GrayscaleModel) as H5. pose proof (Hne ScalarModel) as H6.
    pose proof (Hne ImageModel) as H7. unfold tag in H1, H2, H3, H4, H5, H6, H7.
    rewrite H1, H2, H3, H4, H5, H6, H7. reflexivity. }
  split; [exact Hcheck|].
  unfold fetch_dc, bindM, lift. fold (dcs_url dc_id).
  rewrite Hreq, Hbody, Hcheck. reflexivity.
Qed.

Lemma check_deserialize_ignores_unrecognized_tag_witness :
  check_deserialize (decode unknown_kind_document) [] = ([], Return tt) /\
  fetch_dc (fun _ _ => Return (Document unknown_kind_document)) "42" []
  = ([], Return (decode unknown_kind_document)).
Proof.
  apply (check_deserialize_ignores_unrecognized_tag
           (fun _ _ => Return (Document unknown_kind_document)) "42"
           (Document unknown_kind_document) (decode unknown_kind_document)
           (PDict [("type", PStr "Vector"); ("v", PList [PInt 1])]) (PStr "Vector") []);
    try reflexivity.
  intros cls; destruct cls; discriminate.
Defined.

(** ** [create_payload]: the kind check *)

Lemma is_valid_type_In (dc_type : string) :
  is_valid_type dc_type = true <-> In dc_type valid_types.
Proof.
  unfold is_valid_type. rewrite existsb_exists. split.
  - intros (s & Hs & Heq). apply String.eqb_eq in Heq. by subst.
  - intros H. exists dc_type. split; [exact H | apply String.eqb_refl].
Qed.

(** C4.  For a kind that is not in [valid_types], [create_payload] raises
    the assertion's error at once: nothing is printed, and the outcome is
    the same whatever the data and whatever [to_json] would answer, so no
    encoding of the input has taken place. *)
Theorem create_payload_rejects_unsupported_kind
    (to_json : value -> string) (data : value) (dc_type : string) (out : stdout) :
  ~ In dc_type valid_types ->
  create_payload to_json data dc_type out
  = (out, Raise (AssertionError
                   ("Type " +:+ dc_type +:+ " not supported. Check capitals (e.g. OrderedPair)."))) /\
  forall to_json' data',
    create_payload to_json' data' dc_type out = create_payload to_json data dc_type out.
Proof.
  intros Hnot.
  assert (is_valid_type dc_type = false) as Hv.
  { destruct (is_valid_type dc_type) eqn:E; [|reflexivity].
    apply is_valid_type_In in E. contradiction. }
  assert (forall tj dat, create_payload tj dat dc_type out
          = (out, Raise (AssertionError
               ("Type " +:+ dc_type +:+ " not supported. Check capitals (e.g. OrderedPair)."))))
    as Hall.
  { intros tj dat. unfold create_payload, bindM, lift. rewrite Hv. reflexivity. }
  split; [apply Hall|]. intros tj dat. by rewrite !Hall.
Qed.

Lemma create_payload_rejects_unsupported_kind_witness :
  create_payload (fun _ => "{}") (PList [PInt 1; PInt 2]) "UnknownKind" []
  = ([], Raise (AssertionError
                  "Type UnknownKind not supported. Check capitals (e.g. OrderedPair).")).
Proof.
  apply (create_payload_rejects_unsupported_kind
           (fun _ => "{}") (PList [PInt 1; PInt 2]) "UnknownKind" []).
  intros H. repeat (destruct H as [H|H]; [discriminate|]). exact H.
Defined.

(** ** The validators *)

(** C7.  Validating against model [cls] a decoded response whose
    [dataContainer] carries another tag fails: [type_must_match] raises
    its assertion, and [parse_obj] raises a [ValidationError] that lists it
    under [dataContainer], whatever the other entries of the container
    are. *)
Theorem type_must_match_rejects_other_tag
    (cls : model) (j : json) (obj d : list (string * value)) (t : value) :
  decode j = PDict obj ->
  dict_get obj "dataContainer" = Some (PDict d) ->
  dict_get d "type" = Some t ->
  t <> PStr (tag cls) ->
  type_must_match cls (PDict d) = Raise (AssertionError "dataContainer type does not match.") /\
  exists errs,
    parse_obj cls (decode j) = Raise (ValidationError (model_name cls) errs) /\
    In ("dataContainer", AssertionError "dataContainer type does not match.") errs.
Proof.
  intros Hj Hdc Ht Hne.
  assert (eq_str t (tag cls) = false) as Heq.
  { destruct t; try reflexivity. simpl.
    destruct (String.eqb_spec s (tag cls)) as [->|]; [|reflexivity].
    destruct (Hne eq_refl). }
  split.
  - unfold type_must_match. simpl. rewrite Ht. simpl. by rewrite Heq.
  - apply (parse_obj_dataContainer_error cls j obj _ Hj).
    rewrite (required_dataContainer cls obj d t Hdc Ht), Heq. reflexivity.
Qed.

Lemma type_must_match_rejects_other_tag_witness :
  keys_must_match OrderedPairModel (decode triple_container) = Return (decode triple_container) /\
  type_must_match OrderedPairModel (decode triple_container)
  = Raise (AssertionError "dataContainer type does not match.") /\
  exists errs,
    parse_obj OrderedPairModel (decode (response_document triple_container))
    = Raise (ValidationError "OrderedPairModel" errs) /\
    In ("dataContainer", AssertionError "dataContainer type does not match.") errs.
Proof.
  split; [reflexivity|].
  eapply (type_must_match_rejects_other_tag OrderedPairModel
            (response_document triple_container)) with (t := PStr "OrderedTriple");
    try reflexivity.
  discriminate.
Defined.

(** C8.  [ScalarModel.keys_must_match] on a container with a ["c"]: when
    the value is an int or a float the check passes and returns the
    container; when it is neither, the check raises the assertion whose
    message names ["c"], and validating a decoded response that holds such
    a container tagged Scalar raises a [ValidationError] listing that
    assertion under [dataContainer].  ([bool] is an [int] for
    [isinstance].) *)
Theorem scalar_keys_must_match (d : list (string * value)) (c : value) :
  dict_get d "c" = Some c ->
  (isinstance c t_float || isinstance c t_int = true ->
   keys_must_match ScalarModel (PDict d) = Return (PDict d)) /\
  (isinstance c t_float || isinstance c t_int = false ->
   keys_must_match ScalarModel (PDict d)
   = Raise (AssertionError (quoted "c" +:+ " dataset is not a float or int")) /\
   forall j obj,
     decode j = PDict obj ->
     dict_get obj "dataContainer" = Some (PDict d) ->
     dict_get d "type" = Some (PStr "Scalar") ->
     exists errs,
       parse_obj ScalarModel (decode j) = Raise (ValidationError "ScalarModel" errs) /\
       In ("dataContainer", AssertionError (quoted "c" +:+ " dataset is not a float or int"))
          errs).
Proof.
  intros Hc.
  assert (keys_must_match ScalarModel (PDict d)
          = if isinstance c t_float || isinstance c t_int then Return (PDict d)
            else Raise (AssertionError (quoted "c" +:+ " dataset is not a float or int")))
    as Hk.
  { unfold keys_must_match, assert_in, contains, dict_contains, getitem.
    rewrite Hc. cbn -[isinstance quoted String.append].
    destruct (isinstance c t_float || isinstance c t_int); reflexivity. }
  split; intros Hnum; rewrite Hk, Hnum; [reflexivity|].
  split; [reflexivity|].
  intros j obj Hj Hdc Ht.
  apply (parse_obj_dataContainer_error ScalarModel j obj _ Hj).
  rewrite (required_dataContainer ScalarModel obj d _ Hdc Ht), Hk, Hnum. reflexivity.
Qed.

Lemma scalar_keys_must_match_witness :
  keys_must_match ScalarModel (PDict [("type", PStr "Scalar"); ("c", PFloat pi_ish)])
  = Return (PDict [("type", PStr "Scalar"); ("c", PFloat pi_ish)]) /\
  keys_must_match ScalarModel (decode string_scalar_container)
  = Raise (AssertionError (quoted "c" +:+ " dataset is not a float or int")) /\
  exists errs,
    parse_obj ScalarModel (decode (response_document string_scalar_container))
    = Raise (ValidationError "ScalarModel" errs) /\
    In ("dataContainer", AssertionError (quoted "c" +:+ " dataset is not a float or int")) errs.
Proof.
  split.
  - apply (scalar_keys_must_match [("type", PStr "Scalar"); ("c", PFloat pi_ish)]
             (PFloat pi_ish)); reflexivity.
  - destruct (scalar_keys_must_match
                [("type", PStr "Scalar"); ("c", PStr "notanumber")] (PStr "notanumber")
                eq_refl) as [_ Hbad].
    destruct (Hbad eq_refl) as [Hk Hparse].
    split; [exact Hk|].
    apply (Hparse (response_document string_scalar_container) _ eq_refl); reflexivity.
Defined.

(** ** [to_python] on an unrecognized tag *)

(** C6, as the code has it.  For a container whose tag is none of the
    seven, [to_python] raises nothing: every case of its [match] is passed
    over and the call returns [None], the missing result the caller has to
    treat as the error condition. *)
Theorem to_python_unrecognized_tag_returns_None
    (float_of_str : string -> option spec_float) (dc container t : value) :
  getitem dc "dataContainer" = Return container ->
  getitem container "type" = Return t ->
  (forall cls, t <> PStr (tag cls)) ->
  to_python float_of_str dc = Return PNone.
Proof.
  intros Hdc Ht Hnone.
  assert (forall cls, eq_str t (tag cls) = false) as Hne.
  { intros cls. destruct t; try reflexivity. simpl.
    destruct (String.eqb_spec s (tag cls)) as [->|]; [|reflexivity].
    destruct (Hnone cls eq_refl). }
  pose proof (Hne OrderedPairModel) as H1. pose proof (Hne OrderedTripleModel) as H2.
  pose proof (Hne DataFrameModel) as H3. pose proof (Hne MatrixModel) as H4.
  pose proof (Hne GrayscaleModel) as H5. pose proof (Hne ScalarModel) as H6.
  pose proof (Hne ImageModel) as H7. unfold tag in H1, H2, H3, H4, H5, H6, H7.
  unfold to_python. rewrite Hdc. simpl. rewrite Ht. simpl.
  rewrite H1, H2, H3, H4, H5, H6, H7. reflexivity.
Qed.

Lemma to_python_unrecognized_tag_returns_None_witness :
  to_python (fun _ => None) (decode unknown_kind_document) = Return PNone.
Proof.
  apply (to_python_unrecognized_tag_returns_None (fun _ => None)
           (decode unknown_kind_document)
           (PDict [("type", PStr "Vector"); ("v", PList [PInt 1])]) (PStr "Vector"));
    try reflexivity.
  intros cls; destruct cls; discriminate.
Defined.

(** C6, as the claim words it, fails: on a container tagged ["Vector"]
    [to_python] raises no exception at all. *)
Lemma to_python_unrecognized_tag_does_not_raise :
  ~ exists e, to_python (fun _ => None) (decode unknown_kind_document) = Raise e.
Proof. intros [e H]. vm_compute in H. discriminate. Qed.

(** ** [create_payload] does not validate what it builds *)

(** C3.  [create_payload] builds payloads that the model of their own
    kind refuses.  For kind Scalar and the string ["notanumber"], and for
    kind DataFrame and every frame (its ["m"] is the str [to_json]
    returns, where [DataFrameModel] wants a dict), the call returns a
    payload, and every decoded response that carries that payload's
    container as its [dataContainer] fails [parse_obj] for that kind. *)
Theorem create_payload_output_is_not_validated (to_json : value -> string) :
  (exists payload,
     (forall out, create_payload to_json (PStr "notanumber") "Scalar" out = (out, Return payload)) /\
     forall j obj,
       decode j = PDict obj ->
       dict_get obj "dataContainer" = payload_container payload ->
       exists errs,
         parse_obj ScalarModel (decode j) = Raise (ValidationError "ScalarModel" errs) /\
         In ("dataContainer", AssertionError (quoted "c" +:+ " dataset is not a float or int"))
            errs) /\
  (forall columns index data, exists payload,
     (forall out, create_payload to_json (DataFrame columns index data) "DataFrame" out
                  = (out, Return payload)) /\
     forall j obj,
       decode j = PDict obj ->
       dict_get obj "dataContainer" = payload_container payload ->
       exists errs,
         parse_obj DataFrameModel (decode j) = Raise (ValidationError "DataFrameModel" errs) /\
         In ("dataContainer",
             AssertionError (quoted "m" +:+ " dataset is not a list, type: <class 'str'>"))
            errs).
Proof.
  split.
  - eexists. split; [intros out; reflexivity|].
    intros j obj Hj Hdc.
    apply (parse_obj_dataContainer_error ScalarModel j obj _ Hj).
    erewrite required_dataContainer; [|exact Hdc|reflexivity]. reflexivity.
  - intros columns index data. eexists. split; [intros out; reflexivity|].
    intros j obj Hj Hdc.
    apply (parse_obj_dataContainer_error DataFrameModel j obj _ Hj).
    erewrite required_dataContainer; [|exact Hdc|reflexivity]. reflexivity.
Qed.

Lemma create_payload_output_is_not_validated_witness :
  exists payload,
    create_payload (fun _ => "{}") small_frame "DataFrame" [] = ([], Return payload) /\
    exists errs,
      parse_obj DataFrameModel
        (decode (response_document
                   (JObject [("type", JString "DataFrame"); ("m", JString "{}")])))
      = Raise (ValidationError "DataFrameModel" errs) /\
      In ("dataContainer",
          AssertionError (quoted "m" +:+ " dataset is not a list, type: <class 'str'>")) errs.
Proof.
  destruct (create_payload_output_is_not_validated (fun _ => "{}")) as [_ Hframe].
  destruct (Hframe [LStr "a"] [LInt 0; LInt 1] [[PInt 1; PInt 2]]) as (payload & Hp & Hv).
  exists payload. split; [apply Hp|].
  apply (Hv (response_document (JObject [("type", JString "DataFrame"); ("m", JString "{}")]))
            _ eq_refl).
  specialize (Hp []). vm_compute in Hp. injection Hp as <-. reflexivity.
Defined.

(** ** Arrays: blocks and row-major order *)

Lemma chunks_length {A : Type} (n size : nat) (l : list A) :
  length (chunks n size l) = n.
Proof. revert l; induction n as [|n IH]; intros l; simpl; [reflexivity | by rewrite IH]. Qed.

Lemma chunks_lookup {A : Type} (n size : nat) (l : list A) (i : nat) :
  i < n -> chunks n size l !! i = Some (take size (drop (i * size) l)).
Proof.
  revert l i; induction n as [|n IH]; intros l i Hi; [lia|].
  destruct i as [|i]; simpl; [reflexivity|].
  rewrite IH by lia. rewrite drop_drop. reflexivity.
Qed.

Lemma ravel_lt (shape idx : list nat) :
  Forall2 lt idx shape -> ravel shape idx < prod_list shape.
Proof.
  intros H. induction H as [|i n idx shape Hi _ IH]; simpl; [lia|].
  fold (prod_list shape). nia.
Qed.

Lemma tolist_row_major (shape idx : list nat) (items : list value) :
  length items = prod_list shape ->
  Forall2 lt idx shape ->
  nested_get (tolist shape items) idx = item <$> items !! ravel shape idx.
Proof.
  intros Hlen H. revert items Hlen.
  induction H as [|i n idx shape Hi Hrest IH]; intros items Hlen.
  - simpl in *. destruct items as [|x [|y items]]; simpl in *; try lia. reflexivity.
  - simpl in *. fold (prod_list shape) in *.
    rewrite list_lookup_fmap, chunks_lookup by exact Hi. simpl.
    pose proof (ravel_lt shape idx Hrest) as Hlt.
    rewrite IH.
    + rewrite lookup_take_lt by exact Hlt. rewrite lookup_drop. reflexivity.
    + rewrite length_take, length_drop. nia.
Qed.

(** ** Encoding lists and planes *)

Lemma encode_with_list (cls : encoder) (again : value -> result json) (l : list value) :
  encode_with cls again (PList l)
  = bind (mapR (encode_with cls again) l) (fun js => Return (JArray js)).
Proof.
  reflexivity.
Qed.

Lemma mapR_map_Return {A B C : Type} (f : B -> result C) (g : A -> B) (h : A -> C)
    (l : list A) :
  (forall a, In a l -> f (g a) = Return (h a)) ->
  mapR f (map g l) = Return (map h l).
Proof.
  induction l as [|a l IH]; intros H; simpl; [reflexivity|].
  rewrite H by (left; reflexivity). simpl.
  rewrite IH by (intros; apply H; right; assumption). reflexivity.
Qed.

Lemma encode_with_item (cls : encoder) (again : value -> result json) (x : value) :
  numeric x \/ x = PNone -> encode_with cls again (item x) = Return (number x).
Proof. intros [H | ->]; [destruct x; try contradiction|]; reflexivity. Qed.

Lemma numeric_nth (items : list value) (n : nat) :
  Forall numeric items -> numeric (nth n items PNone) \/ nth n items PNone = PNone.
Proof.
  intros H. destruct (nth_in_or_default n items PNone) as [Hin | ->]; [|by right].
  left. rewrite Forall_forall in H. apply H. by apply list_elem_of_In.
Qed.

Lemma chunks_map {A : Type} (n size : nat) (l : list A) :
  chunks n size l = map (fun i => take size (drop (i * size) l)) (seq 0 n).
Proof.
  apply list_eq. intros i.
  destruct (decide (i < n)) as [Hi|Hi].
  - rewrite chunks_lookup by exact Hi.
    rewrite list_lookup_fmap, lookup_seq_lt by exact Hi. reflexivity.
  - rewrite !lookup_ge_None_2; [reflexivity| |].
    + rewrite length_map, length_seq. lia.
    + rewrite chunks_length. lia.
Qed.

Lemma take_1_drop (l : list value) (j : nat) :
  j < length l -> take 1 (drop j l) = [nth j l PNone].
Proof.
  revert j; induction l as [|x l IH]; intros j Hj; simpl in Hj; [lia|].
  destruct j as [|j]; simpl; [by rewrite take_0 | apply IH; lia].
Qed.

Lemma tolist_0d_take (l : list value) (j : nat) :
  tolist [] (take 1 (drop j l)) = item (nth j l PNone).
Proof.
  revert j; induction l as [|x l IH]; intros j.
  - rewrite drop_nil. destruct j; reflexivity.
  - destruct j as [|j]; simpl; [reflexivity | apply IH].
Qed.

Lemma nth_take_drop (l : list value) (a w j : nat) :
  j < w -> nth j (take w (drop a l)) PNone = nth (a + j) l PNone.
Proof.
  intros Hj. rewrite !nth_lookup, lookup_take_lt, lookup_drop by exact Hj. reflexivity.
Qed.

Lemma tolist_cons (n : nat) (rest : list nat) (items : list value) :
  tolist (n :: rest) items
  = PList (map (tolist rest) (chunks n (prod_list rest) items)).
Proof. reflexivity. Qed.

(** The nested lists of a 2-d array, by row and column. *)
Lemma tolist_2d (h w : nat) (items : list value) :
  tolist [h; w] items
  = PList (map (fun i => PList (map (fun j => item (nth (i * w + j) items PNone)) (seq 0 w)))
               (seq 0 h)).
Proof.
  rewrite tolist_cons. change (prod_list [w]) with (w * 1).
  rewrite Nat.mul_1_r, chunks_map, map_map. f_equal.
  apply map_ext. intros i. rewrite tolist_cons. f_equal.
  change (prod_list []) with 1.
  rewrite chunks_map, map_map. apply map_ext_in. intros j Hj.
  apply in_seq in Hj. rewrite Nat.mul_1_r, tolist_0d_take, nth_take_drop by lia. reflexivity.
Qed.

Lemma concat_map_singleton {A B : Type} (g : A -> B) (l : list A) :
  concat (map (fun a => [g a]) l) = map g l.
Proof. induction l as [|a l IH]; simpl; [reflexivity | by rewrite IH]. Qed.

(** The items of channel [k] of [n] pixels of [c] bands. *)
Lemma channel_items (n c k : nat) (items : list value) :
  length items = n * c -> k < c ->
  concat (map (fun block => take 1 (drop (k * 1) block)) (chunks n (c * 1) items))
  = map (fun q => nth (q * c + k) items PNone) (seq 0 n).
Proof.
  intros Hlen Hk. rewrite !Nat.mul_1_r, chunks_map, map_map.
  rewrite <- (concat_map_singleton (fun q => nth (q * c + k) items PNone)). f_equal.
  apply map_ext_in. intros q Hq. apply in_seq in Hq.
  rewrite take_1_drop.
  - by rewrite nth_take_drop.
  - rewrite length_take, length_drop. nia.
Qed.

Lemma encode_channel (cls : encoder) (again : value -> result json)
    (h w c k : nat) (items : list value) :
  length items = h * w * c -> k < c -> Forall numeric items ->
  encode_with cls again
    (tolist [h; w]
       (concat (map (fun block => take 1 (drop (k * 1) block))
                    (chunks (h * w) (c * 1) items))))
  = Return (plane items h w c k).
Proof.
  intros Hlen Hk Hnum.
  rewrite channel_items, tolist_2d by assumption.
  rewrite encode_with_list.
  rewrite (mapR_map_Return _ _
             (fun i => JArray (map (fun j => number (nth ((i * w + j) * c + k) items PNone))
                                   (seq 0 w)))); [reflexivity|].
  intros i Hi. apply in_seq in Hi. rewrite encode_with_list.
  rewrite (mapR_map_Return _ _ (fun j => number (nth ((i * w + j) * c + k) items PNone)));
    [reflexivity|].
  intros j Hj. apply in_seq in Hj.
  rewrite (nth_indep _ PNone (nth (0 * c + k) items PNone)).
  - rewrite (map_nth (fun q => nth (q * c + k) items PNone)), seq_nth by nia.
    apply encode_with_item, numeric_nth, Hnum.
  - rewrite length_map, length_seq. nia.
Qed.

Lemma channel_3d (h w c k : nat) (items : list value) :
  channel ([h; w; c], items) k
  = if (k <? c)%nat then
      Return (NdArray [h; w]
                (concat (map (fun block => take 1 (drop (k * 1) block))
                             (chunks (h * w) (c * 1) items))))
    else Raise (IndexError "index is out of bounds for axis 2").
Proof. reflexivity. Qed.

Lemma json_dumps_unfold (cls : encoder) (o : value) :
  json_dumps o cls = encode_with cls (encode_with cls (iterencode cls 998)) o.
Proof. reflexivity. Qed.

Lemma encode_with_ndarray (again : value -> result json) (shape : list nat)
    (items : list value) :
  encode_with NumpyEncoder again (NdArray shape items) = again (tolist shape items).
Proof. reflexivity. Qed.

Lemma encode_with_image_envelope (cls : encoder) (again : value -> result json)
    (r g b a : value) (jr jg jb ja : json) :
  encode_with cls again r = Return jr ->
  encode_with cls again g = Return jg ->
  encode_with cls again b = Return jb ->
  encode_with cls again a = Return ja ->
  encode_with cls again (envelope "Image" [("r", r); ("g", g); ("b", b); ("a", a)])
  = Return (JObject [("data", JObject [("type", JString "Image");
                                       ("r", jr); ("g", jg); ("b", jb); ("a", ja)])]).
Proof.
  intros Hr Hg Hb Ha. unfold envelope. simpl.
  rewrite Hr, Hg, Hb, Ha. reflexivity.
Qed.

(** ** [create_payload]: images *)

(** The Image case of [create_payload], step by step. *)
Lemma create_payload_Image_steps (to_json : value -> string) (data : value) (out : stdout)
    (RGB_img : ndarray) (r g b a : value) (n : nat) (p : json) :
  np_asarray data = Return RGB_img ->
  channel RGB_img 0 = Return r ->
  channel RGB_img 1 = Return g ->
  channel RGB_img 2 = Return b ->
  shape_at RGB_img 2 = Return n ->
  (if (n =? 4)%nat then channel RGB_img 3 else Return PNone) = Return a ->
  json_dumps (envelope "Image" [("r", r); ("g", g); ("b", b); ("a", a)]) NumpyEncoder
  = Return p ->
  create_payload to_json data "Image" out = (out, Return p).
Proof.
  intros Harr Hr Hg Hb Hn Ha Hp.
  unfold create_payload, bindM, lift, retM.
  cbn -[json_dumps channel shape_at np_asarray Nat.eqb].
  rewrite Harr. cbn -[json_dumps channel shape_at np_asarray Nat.eqb].
  rewrite Hr, Hg, Hb. cbn -[json_dumps channel shape_at np_asarray Nat.eqb].
  rewrite Hn. cbn -[json_dumps channel shape_at np_asarray Nat.eqb].
  rewrite Ha. cbn -[json_dumps channel shape_at np_asarray Nat.eqb].
  rewrite Hp. reflexivity.
Qed.

(** The Image case fails as soon as a channel cannot be taken. *)
Lemma create_payload_Image_no_channel (to_json : value -> string) (data : value)
    (out : stdout) (RGB_img : ndarray) (e : exn) :
  np_asarray data = Return RGB_img ->
  channel RGB_img 0 = Raise e \/
  (exists r, channel RGB_img 0 = Return r /\ channel RGB_img 1 = Raise e) \/
  (exists r g, channel RGB_img 0 = Return r /\ channel RGB_img 1 = Return g /\
               channel RGB_img 2 = Raise e) ->
  create_payload to_json data "Image" out = (out, Raise e).
Proof.
  intros Harr H.
  unfold create_payload, bindM, lift, retM.
  cbn -[json_dumps channel shape_at np_asarray Nat.eqb].
  rewrite Harr. cbn -[json_dumps channel shape_at np_asarray Nat.eqb].
  destruct H as [H | [(r & Hr & H) | (r & g & Hr & Hg & H)]].
  - rewrite H. reflexivity.
  - rewrite Hr. cbn -[json_dumps channel shape_at np_asarray Nat.eqb]. rewrite H. reflexivity.
  - rewrite Hr. cbn -[json_dumps channel shape_at np_asarray Nat.eqb].
    rewrite Hg. cbn -[json_dumps channel shape_at np_asarray Nat.eqb]. rewrite H. reflexivity.
Qed.

Lemma channel_3d_lt (h w c k : nat) (items : list value) :
  k < c ->
  channel ([h; w; c], items) k
  = Return (NdArray [h; w]
              (concat (map (fun block => take 1 (drop (k * 1) block))
                           (chunks (h * w) (c * 1) items)))).
Proof. intros Hk. rewrite channel_3d. by destruct (Nat.ltb_spec k c); [|lia]. Qed.

Lemma channel_3d_ge (h w c k : nat) (items : list value) :
  c <= k ->
  channel ([h; w; c], items) k = Raise (IndexError "index is out of bounds for axis 2").
Proof. intros Hk. rewrite channel_3d. by destruct (Nat.ltb_spec k c); [lia|]. Qed.

(** With at least 3 channels the payload carries the planes of channels
    0, 1 and 2, and that of channel 3 exactly when there are 4. *)
Lemma create_payload_Image_planes
    (to_json : value -> string) (h w c : nat) (items : list value) (out : stdout) :
  length items = h * w * c ->
  Forall numeric items ->
  3 <= c ->
  create_payload to_json (NdArray [h; w; c] items) "Image" out
  = (out, Return (JObject
       [("data", JObject [("type", JString "Image");
                          ("r", plane items h w c 0);
                          ("g", plane items h w c 1);
                          ("b", plane items h w c 2);
                          ("a", if (c =? 4)%nat then plane items h w c 3 else JNull)])])).
Proof.
  intros Hlen Hnum Hc.
  assert (forall k, k < c ->
            encode_with NumpyEncoder (encode_with NumpyEncoder (iterencode NumpyEncoder 998))
              (NdArray [h; w]
                 (concat (map (fun block => take 1 (drop (k * 1) block))
                              (chunks (h * w) (c * 1) items))))
            = Return (plane items h w c k)) as Hplane.
  { intros k Hk. rewrite encode_with_ndarray. by apply encode_channel. }
  destruct (c =? 4)%nat eqn:E;
    [apply Nat.eqb_eq in E as Hc4 | apply Nat.eqb_neq in E as Hc4].
  - eapply create_payload_Image_steps;
      [reflexivity | apply channel_3d_lt; lia | apply channel_3d_lt; lia
      | apply channel_3d_lt; lia | reflexivity
      | simpl fst; rewrite E; apply channel_3d_lt; lia |].
    rewrite json_dumps_unfold.
    apply encode_with_image_envelope; apply Hplane; lia.
  - eapply create_payload_Image_steps;
      [reflexivity | apply channel_3d_lt; lia | apply channel_3d_lt; lia
      | apply channel_3d_lt; lia | reflexivity
      | simpl fst; rewrite E; reflexivity |].
    rewrite json_dumps_unfold.
    apply encode_with_image_envelope; first [apply Hplane; lia | reflexivity].
Qed.

(** C5.  For a pixel array of shape height x width x channels holding
    numbers, with at least 3 channels, [create_payload] for kind Image
    returns the payload whose ["r"], ["g"] and ["b"] are the 2-d planes of
    channels 0, 1 and 2 (row [i], column [j] of plane [k] is item
    [(i * width + j) * channels + k] of the array), and whose ["a"] is the
    plane of channel 3 exactly when there are 4 channels and [null]
    otherwise.  With fewer than 3 channels, or on an array of fewer than 3
    dimensions, the call raises [IndexError] and builds nothing. *)
Theorem create_payload_Image
    (to_json : value -> string) (h w c : nat) (items : list value) (out : stdout) :
  length items = h * w * c ->
  Forall numeric items ->
  (3 <= c ->
   create_payload to_json (NdArray [h; w; c] items) "Image" out
   = (out, Return (JObject
        [("data", JObject [("type", JString "Image");
                           ("r", plane items h w c 0);
                           ("g", plane items h w c 1);
                           ("b", plane items h w c 2);
                           ("a", if (c =? 4)%nat then plane items h w c 3 else JNull)])]))) /\
  (c < 3 ->
   create_payload to_json (NdArray [h; w; c] items) "Image" out
   = (out, Raise (IndexError "index is out of bounds for axis 2"))) /\
  (forall shape, length shape < 3 ->
   create_payload to_json (NdArray shape items) "Image" out
   = (out, Raise (IndexError "too many indices for array"))).
Proof.
  intros Hlen Hnum.
  split; [|split].
  - intros Hc. by apply create_payload_Image_planes.
  - intros Hc.
    eapply create_payload_Image_no_channel; [reflexivity|].
    destruct c as [|[|[|c]]]; [| | |lia].
    + left. apply channel_3d_ge; lia.
    + right. left. eexists. split; [apply channel_3d_lt; lia | apply channel_3d_ge; lia].
    + right. right. do 2 eexists.
      split; [apply channel_3d_lt; lia|].
      split; [apply channel_3d_lt; lia | apply channel_3d_ge; lia].
  - intros shape Hshape.
    eapply create_payload_Image_no_channel; [reflexivity|]. left.
    destruct shape as [|a [|b [|d shape]]]; simpl in Hshape; try lia; reflexivity.
Qed.

Lemma create_payload_Image_witness :
  create_payload (fun _ => "{}") (NdArray [1; 2; 3] (map NpInteger [1; 2; 3; 4; 5; 6]%Z))
    "Image" []
  = ([], Return (JObject
       [("data", JObject [("type", JString "Image");
                          ("r", JArray [JArray [JInt 1; JInt 4]]);
                          ("g", JArray [JArray [JInt 2; JInt 5]]);
                          ("b", JArray [JArray [JInt 3; JInt 6]]);
                          ("a", JNull)])])) /\
  create_payload (fun _ => "{}") (NdArray [1; 2; 2] (map NpInteger [1; 2; 3; 4]%Z))
    "Image" []
  = ([], Raise (IndexError "index is out of bounds for axis 2")).
Proof.
  split.
  - apply (create_payload_Image (fun _ => "{}") 1 2 3 (map NpInteger [1; 2; 3; 4; 5; 6]%Z) []);
      [reflexivity | repeat constructor | lia].
  - apply (create_payload_Image (fun _ => "{}") 1 2 2 (map NpInteger [1; 2; 3; 4]%Z) []);
      [reflexivity | repeat constructor | lia].
Defined.

(** ** [NumpyEncoder] *)

(** C9.  [NumpyEncoder.default] turns an [np.integer] into the int of the
    same value, an [np.floating] into the float it holds, and an array into
    [tolist()]: nested lists along the axes in order, where the entry at
    index [idx] is the item at the row-major offset of [idx], as a Python
    number.  The 2x2 integer array encodes to [[1, 2], [3, 4]] made of
    plain ints.  Any other object reaches [JSONEncoder.default], which
    raises [TypeError]. *)
Theorem NumpyEncoder_default_spec :
  (forall z, NumpyEncoder_default (NpInteger z) = Return (PInt z)) /\
  (forall k f, NumpyEncoder_default (NpFloating k f) = Return (PFloat f)) /\
  (forall shape items,
     NumpyEncoder_default (NdArray shape items) = Return (tolist shape items) /\
     forall idx,
       length items = prod_list shape ->
       Forall2 lt idx shape ->
       nested_get (tolist shape items) idx = item <$> items !! ravel shape idx) /\
  (NumpyEncoder_default (NdArray [2; 2] [NpInteger 1; NpInteger 2; NpInteger 3; NpInteger 4])
   = Return (PList [PList [PInt 1; PInt 2]; PList [PInt 3; PInt 4]]) /\
   json_dumps (NdArray [2; 2] [NpInteger 1; NpInteger 2; NpInteger 3; NpInteger 4]) NumpyEncoder
   = Return (JArray [JArray [JInt 1; JInt 2]; JArray [JInt 3; JInt 4]])) /\
  (forall o,
     isinstance o np_integer = false ->
     isinstance o np_floating = false ->
     isinstance o np_ndarray = false ->
     NumpyEncoder_default o = JSONEncoder_default o /\
     NumpyEncoder_default o
     = Raise (TypeError ("Object of type " +:+ type_name o +:+ " is not JSON serializable")) /\
     (isinstance o t_str || isinstance o t_int || isinstance o t_float
      || isinstance o t_list || isinstance o t_dict = false ->
      o <> PNone ->
      json_dumps o NumpyEncoder
      = Raise (TypeError ("Object of type " +:+ type_name o +:+ " is not JSON serializable")))).
Proof.
  repeat split; try reflexivity.
  - intros idx Hlen Hidx. by apply tolist_row_major.
  - destruct o; try discriminate; reflexivity.
  - destruct o; try discriminate; reflexivity.
  - destruct o; try discriminate; try reflexivity; intros; try congruence.
Qed.

Lemma NumpyEncoder_default_spec_witness :
  nested_get (tolist [2; 3] (map NpInteger [10; 11; 12; 20; 21; 22]%Z)) [1; 2] = Some (PInt 22) /\
  NumpyEncoder_default (PObject "Decimal")
  = Raise (TypeError "Object of type Decimal is not JSON serializable") /\
  json_dumps (PObject "Decimal") NumpyEncoder
  = Raise (TypeError "Object of type Decimal is not JSON serializable").
Proof.
  destruct NumpyEncoder_default_spec as (_ & _ & Harr & _ & Hother).
  split.
  - destruct (Harr [2; 3] (map NpInteger [10; 11; 12; 20; 21; 22]%Z)) as [_ Hidx].
    apply (Hidx [1; 2]); [reflexivity|].
    repeat constructor.
  - destruct (Hother (PObject "Decimal") eq_refl eq_refl eq_refl) as (_ & Hd & Hj).
    split; [exact Hd|]. apply Hj; [reflexivity | discriminate].
Defined.

(** ** The round trip: arrays read back from planes *)

Lemma np_asarray_list (l : list value) :
  np_asarray (PList l)
  = bind (mapR np_asarray l) (fun subs =>
      match subs with
      | [] => Return ([0], [])
      | (s, _) :: _ =>
          if forallb (fun a => shape_eqb (fst a) s) subs
          then Return (length l :: s, concat (map snd subs))
          else Raise (ValueError "setting an array element with a sequence. The requested array has an inhomogeneous shape")
      end).
Proof. destruct l; reflexivity. Qed.

Lemma forallb_same_shape {A : Type} (s : list nat) (f : A -> list value) (l : list A) :
  forallb (fun a => shape_eqb (fst a) s) (map (fun i => (s, f i)) l) = true.
Proof.
  induction l as [|a l IH]; simpl; [reflexivity|].
  rewrite IH. unfold shape_eqb. by rewrite bool_decide_eq_true_2.
Qed.

(** A list of arrays of one shape is an array of one more dimension. *)
Lemma np_asarray_rows {A : Type} (s : list nat) (row : A -> value) (f : A -> list value)
    (l : list A) :
  (forall a, In a l -> np_asarray (row a) = Return (s, f a)) ->
  exists shape its, np_asarray (PList (map row l)) = Return (shape, its) /\ shape <> [].
Proof.
  intros Hrow. rewrite np_asarray_list.
  rewrite (mapR_map_Return np_asarray row (fun a => (s, f a)) l Hrow). simpl.
  destruct l as [|a l]; simpl; [by eexists _, _|].
  change (map (fun a0 => (s, f a0)) l) with (map (fun i => (s, f i)) l).
  rewrite forallb_same_shape. unfold shape_eqb. rewrite bool_decide_eq_true_2 by reflexivity.
  simpl. by eexists _, _.
Qed.

Lemma np_asarray_number (x : value) :
  np_asarray (decode (number x)) = Return ([], [np_scalar (decode (number x))]).
Proof. destruct x; reflexivity. Qed.

Lemma np_asarray_row (cell : nat -> value) (w : nat) :
  (forall j, np_asarray (cell j) = Return ([], [np_scalar (cell j)])) ->
  np_asarray (PList (map cell (seq 0 w)))
  = Return ([w], map (fun j => np_scalar (cell j)) (seq 0 w)).
Proof.
  intros Hcell. rewrite np_asarray_list.
  rewrite (mapR_map_Return np_asarray cell (fun j => ([], [np_scalar (cell j)])) _
             (fun j _ => Hcell j)).
  destruct w as [|w]; [reflexivity|].
  rewrite length_map, length_seq.
  pose proof (forallb_same_shape [] (fun j => [np_scalar (cell j)]) (seq 0 (S w))) as Hall.
  pose proof (concat_map_singleton (fun j => np_scalar (cell j)) (seq 0 (S w))) as Hcat.
  rewrite <- Hcat.
  simpl in *.
  match goal with
  | |- (if ?b then _ else _) = _ => replace b with true by (symmetry; exact Hall)
  end.
  by rewrite map_map.
Qed.

(** A decoded plane is read back as an array of at least one dimension. *)
Lemma np_asarray_plane (items : list value) (h w c k : nat) :
  exists shape its,
    np_asarray (decode (plane items h w c k)) = Return (shape, its) /\ shape <> [].
Proof.
  unfold plane.
  change (decode (JArray ?l)) with (PList (map decode l)).
  rewrite map_map. simpl.
  apply (np_asarray_rows [w] _
           (fun i => map (fun j => np_scalar (decode (number (nth ((i * w + j) * c + k) items PNone))))
                         (seq 0 w))).
  intros i _. rewrite map_map.
  apply (np_asarray_row
           (fun j => decode (number (nth ((i * w + j) * c + k) items PNone)))).
  intros j. apply np_asarray_number.
Qed.

(** Stacking three planes with [None] is refused. *)
Lemma np_stack_planes_with_None (items : list value) (h w c : nat) :
  np_stack_axis2 [decode (plane items h w c 0); decode (plane items h w c 1);
                  decode (plane items h w c 2); PNone]
  = Raise (ValueError "all input arrays must have the same shape").
Proof.
  destruct (np_asarray_plane items h w c 0) as (s0 & i0 & H0 & Hs0).
  destruct (np_asarray_plane items h w c 1) as (s1 & i1 & H1 & _).
  destruct (np_asarray_plane items h w c 2) as (s2 & i2 & H2 & _).
  unfold np_stack_axis2.
  change (mapR np_asarray [?a; ?b; ?c'; ?d])
    with (bind (np_asarray a) (fun x => bind (bind (np_asarray b) (fun y =>
          bind (bind (np_asarray c') (fun z => bind (bind (np_asarray d) (fun t =>
          Return [t])) (fun ts => Return (z :: ts)))) (fun zs => Return (y :: zs))))
          (fun ys => Return (x :: ys)))).
  rewrite H0, H1, H2. simpl.
  assert (shape_eqb [] s0 = false) as ->.
  { unfold shape_eqb. apply bool_decide_eq_false_2. congruence. }
  rewrite !andb_false_r. reflexivity.
Qed.

Lemma decode_image_payload (r g b a : json) :
  as_container
    (JObject [("data", JObject [("type", JString "Image");
                                ("r", r); ("g", g); ("b", b); ("a", a)])])
  = Return (PDict [("dataContainer",
                    PDict [("type", PStr "Image"); ("r", decode r); ("g", decode g);
                           ("b", decode b); ("a", decode a)])]).
Proof. reflexivity. Qed.

Lemma to_python_image_with_a (float_of_str : string -> option spec_float) (r g b a : value) :
  to_python float_of_str
    (PDict [("dataContainer",
             PDict [("type", PStr "Image"); ("r", r); ("g", g); ("b", b); ("a", a)])])
  = bind (np_stack_axis2 [r; g; b; a]) (fun img_combined =>
    bind (np_uint8 img_combined) (fun bytes =>
    bind (Image_fromarray bytes) (fun img => convert img "RGBA"))).
Proof. reflexivity. Qed.

(** Every 3-channel image fails the round trip. *)
Lemma round_trip_fails_on_every_RGB_image
    (to_json : value -> string) (float_of_str : string -> option spec_float)
    (h w : nat) (items : list value) :
  length items = h * w * 3 ->
  Forall numeric items ->
  round_trip to_json float_of_str (NdArray [h; w; 3] items) "Image"
  = Raise (ValueError "all input arrays must have the same shape").
Proof.
  intros Hlen Hnum. unfold round_trip.
  rewrite (create_payload_Image_planes to_json h w 3 items [] Hlen Hnum (le_n 3)).
  change (if (3 =? 4)%nat then plane items h w 3 3 else JNull) with JNull.
  rewrite decode_image_payload.
  change (bind (Return ?x) (to_python float_of_str)) with (to_python float_of_str x).
  rewrite to_python_image_with_a.
  change (decode JNull) with PNone.
  by rewrite np_stack_planes_with_None.
Qed.

(** The round trip on the kinds it works for: the samples of an ordered
    pair, an ordered triple, a matrix, a grayscale image and a 4-channel
    image, and every float as a Scalar. *)
Lemma round_trip_samples (to_json : value -> string)
    (float_of_str : string -> option spec_float) :
  round_trip to_json float_of_str xy_pair "OrderedPair"
  = Return (DataFrame [LStr "x"; LStr "y"] [LInt 0; LInt 1; LInt 2]
              [[PInt 1; PInt 2; PInt 3]; [PInt 4; PInt 5; PInt 6]]) /\
  round_trip to_json float_of_str
    (PDict [("x", PList [PInt 1]); ("y", PList [PInt 2]); ("z", PList [PInt 3])])
    "OrderedTriple"
  = Return (DataFrame [LStr "x"; LStr "y"; LStr "z"] [LInt 0]
              [[PInt 1]; [PInt 2]; [PInt 3]]) /\
  (forall f, round_trip to_json float_of_str (PFloat f) "Scalar" = Return (PFloat f)) /\
  round_trip to_json float_of_str matrix_2x2 "Matrix"
  = Return (DataFrame [LInt 0; LInt 1] [LInt 0; LInt 1]
              [[PInt 1; PInt 3]; [PInt 2; PInt 4]]) /\
  round_trip to_json float_of_str
    (NdArray [2; 2] (map NpInteger [1; 2; 3; 4]%Z)) "Grayscale"
  = Return (DataFrame [LInt 0; LInt 1] [LInt 0; LInt 1]
              [[PInt 1; PInt 3]; [PInt 2; PInt 4]]) /\
  round_trip to_json float_of_str rgba_2x2 "Image"
  = Return (PILImage "RGBA" 2 2
              [[255; 0; 0; 255]; [0; 255; 0; 255]; [0; 0; 255; 128]; [10; 20; 30; 0]]%Z).
Proof. repeat split; vm_compute; reflexivity. Qed.

(** C2, on the code.  The round trip does not hold for all seven kinds.
    For kind DataFrame, whatever the frame, the payload's ["m"] is the str
    [to_json] returned, and [to_python] hands that str to the [DataFrame]
    constructor, which refuses it.  For a 3-channel image the payload
    carries ["a": null], so [to_python] takes the 4-plane branch and
    stacks [None] with the three planes, which numpy refuses. *)
Theorem round_trip_fails_on_DataFrame_and_RGB
    (to_json : value -> string) (float_of_str : string -> option spec_float) :
  (forall columns index data,
     round_trip to_json float_of_str (DataFrame columns index data) "DataFrame"
     = Raise (ValueError "DataFrame constructor not properly called!")) /\
  create_payload to_json rgb_2x2 "Image" []
  = ([], Return (JObject
       [("data", JObject [("type", JString "Image");
                          ("r", JArray [JArray [JInt 255; JInt 0]; JArray [JInt 0; JInt 10]]);
                          ("g", JArray [JArray [JInt 0; JInt 255]; JArray [JInt 0; JInt 20]]);
                          ("b", JArray [JArray [JInt 0; JInt 0]; JArray [JInt 255; JInt 30]]);
                          ("a", JNull)])])) /\
  round_trip to_json float_of_str rgb_2x2 "Image"
  = Raise (ValueError "all input arrays must have the same shape").
Proof.
  split; [|split].
  - intros columns index data. reflexivity.
  - vm_compute. reflexivity.
  - vm_compute. reflexivity.
Qed.

(** * Further properties *)

(** ** The calls to the service *)

(** X1.  [store_dc] sends nothing when [create_payload] raises: the
    exception reaches the caller with what was printed, and the list of
    requests is as before.  When the payload is built, exactly one POST to
    the dcs address carries it, and the answer is decoded and returned as
    it is. *)
Theorem store_dc_sends_only_built_payloads
    (to_json : value -> string) (service : list request -> request -> result text)
    (data : value) (dc_type : string) (w : world) :
  (forall out' e,
     create_payload to_json data dc_type (w_out w) = (out', Raise e) ->
     store_dc to_json service data dc_type w = (World out' (w_sent w), Raise e)) /\
  (forall out' payload,
     create_payload to_json data dc_type (w_out w) = (out', Return payload) ->
     store_dc to_json service data dc_type w
     = (World out' (w_sent w ++ [Request "POST" store_url (Some payload)]),
        bind (service (w_sent w) (Request "POST" store_url (Some payload))) json_loads)).
Proof.
  split; intros out' x Hp; unfold store_dc, bindW, liftM; rewrite Hp; [reflexivity|].
  unfold requests_request, liftR. simpl.
  destruct (service _ _); reflexivity.
Qed.

Lemma store_dc_sends_only_built_payloads_witness :
  store_dc (fun _ => "{}") (fun _ _ => Return (Document (JObject [("ref", JString "r1")])))
    (PInt 3) "OrderedPair" (World [] [])
  = (World [PrintStr "For ordered pair type, data must be in dictionary form with keys 'x' and 'y'"]
       [],
     Raise (TypeError EmptyString)) /\
  store_dc (fun _ => "{}") (fun _ _ => Return (Document (JObject [("ref", JString "r1")])))
    (PInt 3) "Scalar" (World [] [])
  = (World [] [Request "POST" store_url
                 (Some (JObject [("data", JObject [("type", JString "Scalar"); ("c", JInt 3)])]))],
     Return (PDict [("ref", PStr "r1")])).
Proof.
  split.
  - apply (store_dc_sends_only_built_payloads (fun _ => "{}")
             (fun _ _ => Return (Document (JObject [("ref", JString "r1")])))
             (PInt 3) "OrderedPair" (World [] [])).
    reflexivity.
  - apply (store_dc_sends_only_built_payloads (fun _ => "{}")
             (fun _ _ => Return (Document (JObject [("ref", JString "r1")])))
             (PInt 3) "Scalar" (World [] [])).
    reflexivity.
Defined.

(** The [try] around [response["data"]]: the entry when there is one, the
    whole response and a printed line when the dict has none, and the
    [TypeError] of the subscript when the response is no dict. *)
Lemma data_or_response_decoded (j : json) (w : world) :
  match decode j with
  | PDict d =>
      match dict_get d "data" with
      | Some v => data_or_response (decode j) w = (w, Return v)
      | None =>
          data_or_response (decode j) w
          = (World (w_out w ++ [size_message]) (w_sent w), Return (decode j))
      end
  | _ => exists msg, data_or_response (decode j) w = (w, Raise (TypeError msg))
  end.
Proof.
  destruct j; simpl; eauto.
  unfold data_or_response. simpl.
  destruct (dict_get _ "data"); reflexivity.
Qed.

(** X2.  The two listing calls send one GET (the size is part of the
    address) and never raise for a missing ["data"]: a dict answer with a
    ["data"] entry gives that entry and prints nothing; a dict answer
    without one is returned whole after the line is printed ([list_measurements]
    prints the same line about DataContainers); an answer that is no dict
    raises the subscript's [TypeError], which the [except KeyError] does
    not catch. *)
Theorem listing_calls_answer
    (service : list request -> request -> result text) (size : Z) (j : json) (w : world) :
  (service (w_sent w) (Request "GET" (list_dcs_url size) None) = Return (Document j) ->
   match decode j with
   | PDict d =>
       match dict_get d "data" with
       | Some v =>
           list_dcs service size w
           = (after_request w (Request "GET" (list_dcs_url size) None), Return v)
       | None =>
           list_dcs service size w
           = (World (w_out w ++ [size_message])
                (w_sent w ++ [Request "GET" (list_dcs_url size) None]),
              Return (decode j))
       end
   | _ =>
       exists msg,
         list_dcs service size w
         = (after_request w (Request "GET" (list_dcs_url size) None), Raise (TypeError msg))
   end) /\
  (service (w_sent w) (Request "GET" (list_measurements_url size) None) = Return (Document j) ->
   match decode j with
   | PDict d =>
       match dict_get d "data" with
       | Some v =>
           list_measurements service size w
           = (after_request w (Request "GET" (list_measurements_url size) None), Return v)
       | None =>
           list_measurements service size w
           = (World (w_out w ++ [size_message])
                (w_sent w ++ [Request "GET" (list_measurements_url size) None]),
              Return (decode j))
       end
   | _ =>
       exists msg,
         list_measurements service size w
         = (after_request w (Request "GET" (list_measurements_url size) None),
            Raise (TypeError msg))
   end).
Proof.
  split; intros Hs.
  - unfold list_dcs, bindW, requests_request, liftR. fold (list_dcs_url size).
    rewrite Hs. simpl json_loads. cbv iota beta.
    pose proof (data_or_response_decoded j
                  (World (w_out w) (w_sent w ++ [Request "GET" (list_dcs_url size) None])))
      as H.
    destruct (decode j) eqn:E; try (destruct H as [msg ->]; by exists msg).
    destruct (dict_get d "data"); rewrite H; reflexivity.
  - unfold list_measurements, bindW, requests_request, liftR.
    fold (list_measurements_url size).
    rewrite Hs. simpl json_loads. cbv iota beta.
    pose proof (data_or_response_decoded j
                  (World (w_out w)
                     (w_sent w ++ [Request "GET" (list_measurements_url size) None])))
      as H.
    destruct (decode j) eqn:E; try (destruct H as [msg ->]; by exists msg).
    destruct (dict_get d "data"); rewrite H; reflexivity.
Qed.

Lemma listing_calls_answer_witness :
  list_dcs (fun _ _ => Return (Document (JObject [("error", JString "too many")]))) 25
    (World [] [])
  = (World [size_message] [Request "GET" (list_dcs_url 25) None],
     Return (PDict [("error", PStr "too many")])) /\
  list_measurements
    (fun _ _ => Return (Document (JObject [("data", JArray [JInt 1; JInt 2])]))) 2
    (World [] [])
  = (World [] [Request "GET" (list_measurements_url 2) None], Return (PList [PInt 1; PInt 2])).
Proof.
  split.
  - apply (listing_calls_answer
             (fun _ _ => Return (Document (JObject [("error", JString "too many")]))) 25
             (JObject [("error", JString "too many")]) (World [] [])).
    reflexivity.
  - apply (listing_calls_answer
             (fun _ _ => Return (Document (JObject [("data", JArray [JInt 1; JInt 2])]))) 2
             (JObject [("data", JArray [JInt 1; JInt 2])]) (World [] [])).
    reflexivity.
Defined.

(** X3.  [create_measurement] encodes with the plain encoder, not with
    [NumpyEncoder]: for a str name and privacy it sends one POST whose body
    is the object of the two and returns the decoded answer; for a name
    that is an array or an [np.integer] it raises [TypeError] and sends
    nothing. *)
Theorem create_measurement_uses_plain_encoder
    (service : list request -> request -> result text) (name privacy : value) (w : world) :
  (forall n p,
     name = PStr n -> privacy = PStr p ->
     let r := Request "POST" measurements_url
                (Some (JObject [("name", JString n); ("privacy", JString p)])) in
     create_measurement service name privacy w
     = (after_request w r, bind (service (w_sent w) r) json_loads)) /\
  (isinstance name np_ndarray || isinstance name np_integer = true ->
   exists msg, create_measurement service name privacy w = (w, Raise (TypeError msg))).
Proof.
  split.
  - intros n p -> -> r. unfold create_measurement, bindW, liftR, requests_request.
    change (json_dumps (PDict [("name", PStr n); ("privacy", PStr p)]) JSONEncoder)
      with (Return (JObject [("name", JString n); ("privacy", JString p)])).
    cbv iota beta. fold measurements_url. fold r.
    unfold after_request. destruct (service (w_sent w) r) as [[]|]; reflexivity.
  - intros Hname. unfold create_measurement, bindW, liftR.
    destruct name; try discriminate; eexists; reflexivity.
Qed.

Lemma create_measurement_uses_plain_encoder_witness :
  create_measurement (fun _ _ => Return (Document (JObject [("id", JString "m1")])))
    (PStr "run 7") (PStr "private") (World [] [])
  = (World [] [Request "POST" measurements_url
                 (Some (JObject [("name", JString "run 7"); ("privacy", JString "private")]))],
     Return (PDict [("id", PStr "m1")])) /\
  exists msg,
    create_measurement (fun _ _ => Return (Document (JObject [("id", JString "m1")])))
      (NpInteger 7) (PStr "private") (World [] [])
    = (World [] [], Raise (TypeError msg)).
Proof.
  split.
  - apply (create_measurement_uses_plain_encoder
             (fun _ _ => Return (Document (JObject [("id", JString "m1")])))
             (PStr "run 7") (PStr "private") (World [] []) ); reflexivity.
  - apply (create_measurement_uses_plain_encoder
             (fun _ _ => Return (Document (JObject [("id", JString "m1")])))
             (NpInteger 7) (PStr "private") (World [] [])); reflexivity.
Defined.

(** X4.  No reading call catches what the transport or the decoder
    raises.  When the service's answer to the one GET is an exception, or a
    body that is not JSON, [get_measurement], [list_dcs] and
    [list_measurements] raise it (for the body, [JSONDecodeError]) with
    nothing printed: the [except KeyError] of the listing calls covers only
    the subscript, so even a [KeyError] from the transport escapes. *)
Theorem reading_calls_propagate_failures
    (service : list request -> request -> result text) (size : Z) (meas_id : string)
    (w : world) (answer : result text) (e : exn) :
  (answer = Raise e \/ exists s, answer = Return (Malformed s) /\ e = JSONDecodeError) ->
  (service (w_sent w) (Request "GET" (measurement_url meas_id) None) = answer ->
   get_measurement service meas_id w
   = (after_request w (Request "GET" (measurement_url meas_id) None), Raise e)) /\
  (service (w_sent w) (Request "GET" (list_dcs_url size) None) = answer ->
   list_dcs service size w
   = (after_request w (Request "GET" (list_dcs_url size) None), Raise e)) /\
  (service (w_sent w) (Request "GET" (list_measurements_url size) None) = answer ->
   list_measurements service size w
   = (after_request w (Request "GET" (list_measurements_url size) None), Raise e)).
Proof.
  intros Hans.
  repeat split; intros Hs;
    unfold get_measurement, list_dcs, list_measurements, bindW, requests_request, liftR;
    fold (measurement_url meas_id) (list_dcs_url size) (list_measurements_url size);
    rewrite Hs; destruct Hans as [-> | (s & -> & ->)]; reflexivity.
Qed.

Lemma reading_calls_propagate_failures_witness :
  list_dcs (fun _ _ => Raise (KeyError "data")) 10 (World [] [])
  = (World [] [Request "GET" (list_dcs_url 10) None], Raise (KeyError "data")) /\
  get_measurement (fun _ _ => Return (Malformed "<html>Bad Gateway</html>")) "m1" (World [] [])
  = (World [] [Request "GET" (measurement_url "m1") None], Raise JSONDecodeError).
Proof.
  split.
  - apply (reading_calls_propagate_failures (fun _ _ => Raise (KeyError "data")) 10 "m1"
             (World [] []) (Raise (KeyError "data")) (KeyError "data"));
      [left; reflexivity | reflexivity].
  - apply (reading_calls_propagate_failures
             (fun _ _ => Return (Malformed "<html>Bad Gateway</html>")) 10 "m1"
             (World [] []) (Return (Malformed "<html>Bad Gateway</html>")) JSONDecodeError);
      [right; eexists; split; reflexivity | reflexivity].
Defined.

(** ** [json.dumps] and [json.loads] *)

Lemma dict_get_None_not_in {A : Type} (d : list (string * A)) (k : string) :
  k ∉ map fst d -> dict_get d k = None.
Proof.
  induction d as [|[k' v] d IH]; simpl; [reflexivity|].
  intros Hk. rewrite not_elem_of_cons in Hk. destruct Hk as [Hne Hk].
  destruct (String.eqb_spec k' k) as [->|_]; [contradiction | by apply IH].
Qed.











(** What the plain encoder writes, [NumpyEncoder] writes the same. *)
Lemma encode_with_NumpyEncoder_extends (a1 a2 : value -> result json) :
  forall v j,
    encode_with JSONEncoder a1 v = Return j -> encode_with NumpyEncoder a2 v = Return j.
Proof.
  fix IH 1. intros v j.
  destruct v as [| b | z | f | s | l | d | z | k f | sh its | c i dt | m h w px | cls];
    try (intros H; exact H); try discriminate.
  - rewrite !encode_with_list.
    destruct (mapR (encode_with JSONEncoder a1) l) as [js|e] eqn:E; [|discriminate].
    intros H. 
    assert (mapR (encode_with NumpyEncoder a2) l = Return js) as ->; [|exact H].
    clear H. revert js E. induction l as [|x l IHl]; intros js E; [exact E|].
    simpl in E. destruct (encode_with JSONEncoder a1 x) as [jx|] eqn:Ex; [|discriminate].
    simpl in E. destruct (mapR (encode_with JSONEncoder a1) l) as [jl|] eqn:El; [|discriminate].
    simpl. rewrite (IH x jx Ex). simpl. rewrite (IHl jl eq_refl). exact E.
  - intros H.
    set (enc1 := fix encd (d : list (string * value)) : result (list (string * json)) :=
                   match d with
                   | [] => Return []
                   | (k, v) :: r =>
                       bind (encode_with JSONEncoder a1 v) (fun j =>
                       bind (encd r) (fun ms => Return ((k, j) :: ms)))
                   end).
    set (enc2 := fix encd (d : list (string * value)) : result (list (string * json)) :=
                   match d with
                   | [] => Return []
                   | (k, v) :: r =>
                       bind (encode_with NumpyEncoder a2 v) (fun j =>
                       bind (encd r) (fun ms => Return ((k, j) :: ms)))
                   end).
    change (bind (enc1 d) (fun ms => Return (JObject ms)) = Return j) in H.
    change (bind (enc2 d) (fun ms => Return (JObject ms)) = Return j).
    destruct (enc1 d) as [ms|e] eqn:E; [|discriminate].
    assert (enc2 d = Return ms) as ->; [|exact H].
    clear H. revert ms E. induction d as [|[k x] d IHd]; intros ms E; [exact E|].
    simpl in E. destruct (encode_with JSONEncoder a1 x) as [jx|] eqn:Ex; [|discriminate].
    simpl in E. destruct (enc1 d) as [jl|] eqn:El; [|discriminate].
    simpl. rewrite (IH x jx Ex). simpl. rewrite (IHd jl eq_refl). exact E.
  - destruct k; try discriminate. intros H; exact H.
Qed.

(** X7.  [NumpyEncoder] extends the plain encoder and changes nothing of
    it: every value [json.dumps] writes without [cls] is written to the
    same document with [cls=NumpyEncoder]. *)
Theorem NumpyEncoder_extends_JSONEncoder (v : value) (j : json) :
  json_dumps v JSONEncoder = Return j -> json_dumps v NumpyEncoder = Return j.
Proof. apply encode_with_NumpyEncoder_extends. Qed.

Lemma NumpyEncoder_extends_JSONEncoder_witness :
  json_dumps (PDict [("name", PStr "run 7"); ("privacy", PStr "private")]) NumpyEncoder
  = Return (JObject [("name", JString "run 7"); ("privacy", JString "private")]).
Proof. apply NumpyEncoder_extends_JSONEncoder. reflexivity. Defined.

(** ** [create_payload]: ordered pairs and triples *)

(** X8.  The guard of the OrderedPair and OrderedTriple cases looks for
    ["x"] only.  Data that is not a dict with an ["x"] prints the case's
    line and raises [TypeError]; a dict with ["x"] but without ["y"] (or,
    for a triple, with both but without ["z"]) raises the [KeyError] of the
    missing key and prints nothing. *)
Theorem create_payload_ordered_guard
    (to_json : value -> string) (data : value) (out : stdout) :
  (is_dict_with "x" data = false ->
   create_payload to_json data "OrderedPair" out
   = (out ++ [pair_message], Raise (TypeError EmptyString)) /\
   create_payload to_json data "OrderedTriple" out
   = (out ++ [triple_message], Raise (TypeError EmptyString))) /\
  (forall d x,
     data = PDict d -> dict_get d "x" = Some x -> dict_get d "y" = None ->
     create_payload to_json data "OrderedPair" out = (out, Raise (KeyError "y")) /\
     create_payload to_json data "OrderedTriple" out = (out, Raise (KeyError "y"))) /\
  (forall d x y,
     data = PDict d -> dict_get d "x" = Some x -> dict_get d "y" = Some y ->
     dict_get d "z" = None ->
     create_payload to_json data "OrderedTriple" out = (out, Raise (KeyError "z"))).
Proof.
  split; [|split].
  - intros H. unfold create_payload, bindM, lift, retM, print, raiseM.
    cbn -[json_dumps is_dict_with]. rewrite H. split; reflexivity.
  - intros d x -> Hx Hy. unfold create_payload, bindM, lift, retM.
    cbn -[json_dumps]. unfold dict_contains. rewrite Hx. cbn -[json_dumps].
    rewrite Hy. split; reflexivity.
  - intros d x y -> Hx Hy Hz. unfold create_payload, bindM, lift, retM.
    cbn -[json_dumps]. unfold dict_contains. rewrite Hx. cbn -[json_dumps].
    rewrite Hy. cbn -[json_dumps]. rewrite Hz. reflexivity.
Qed.

Lemma create_payload_ordered_guard_witness :
  create_payload (fun _ => "{}") (PList [PInt 1; PInt 2]) "OrderedPair" []
  = ([pair_message], Raise (TypeError EmptyString)) /\
  create_payload (fun _ => "{}") (PDict [("x", PList [PInt 1])]) "OrderedPair" []
  = ([], Raise (KeyError "y")) /\
  create_payload (fun _ => "{}") (PDict [("x", PList [PInt 1]); ("y", PList [PInt 2])])
    "OrderedTriple" []
  = ([], Raise (KeyError "z")).
Proof.
  split; [|split].
  - apply (create_payload_ordered_guard (fun _ => "{}") (PList [PInt 1; PInt 2]) []).
    reflexivity.
  - eapply (create_payload_ordered_guard (fun _ => "{}") (PDict [("x", PList [PInt 1])]) []);
      reflexivity.
  - eapply (create_payload_ordered_guard (fun _ => "{}")
              (PDict [("x", PList [PInt 1]); ("y", PList [PInt 2])]) []);
      reflexivity.
Defined.

(** ** [fetch_dc]: what the dispatch line raises *)

(** X9.  [fetch_dc] is not total on decoded answers: the line that reads
    the tag is outside every [try].  A dict answer without
    ["dataContainer"], or whose container is a dict without ["type"],
    raises [KeyError]; an answer, or a container, that is no dict raises
    [TypeError]; in each case nothing is printed and nothing is
    returned. *)
Theorem fetch_dc_dispatch_failures
    (request_text : string -> string -> result text) (dc_id : string) (j : json)
    (out : stdout) :
  request_text "GET" (dcs_url dc_id) = Return (Document j) ->
  match decode j with
  | PDict obj =>
      match dict_get obj "dataContainer" with
      | None => fetch_dc request_text dc_id out = (out, Raise (KeyError "dataContainer"))
      | Some (PDict d) =>
          dict_get d "type" = None ->
          fetch_dc request_text dc_id out = (out, Raise (KeyError "type"))
      | Some _ => exists msg, fetch_dc request_text dc_id out = (out, Raise (TypeError msg))
      end
  | _ => exists msg, fetch_dc request_text dc_id out = (out, Raise (TypeError msg))
  end.
Proof.
  intros Hreq.
  assert (forall e, getitem (decode j) "dataContainer" = Raise e ->
                    fetch_dc request_text dc_id out = (out, Raise e)) as Hresp.
  { intros e He. unfold fetch_dc, check_deserialize, bindM, lift.
    fold (dcs_url dc_id). rewrite Hreq. simpl. rewrite He. reflexivity. }
  assert (forall dc e,
            getitem (decode j) "dataContainer" = Return dc -> getitem dc "type" = Raise e ->
            fetch_dc request_text dc_id out = (out, Raise e)) as Hdc.
  { intros dc e H1 H2. unfold fetch_dc, check_deserialize, bindM, lift.
    fold (dcs_url dc_id). rewrite Hreq. simpl. rewrite H1, H2. reflexivity. }
  destruct (decode j) as [| | | | |l|obj| | | | | |] eqn:Ej;
    try (eexists; eapply Hresp; reflexivity);
    try (destruct j; discriminate).
  destruct (dict_get obj "dataContainer") as [dc|] eqn:Eg.
  - destruct (decode_fields j obj _ _ Ej Eg) as [j' ->].
    assert (getitem (PDict obj) "dataContainer" = Return (decode j')) as Hget
        by (simpl; by rewrite Eg).
    destruct j'; try (eexists; eapply Hdc; [exact Hget | reflexivity]).
    destruct (decode (JObject members)) eqn:Ed; try discriminate.
    intros Ht. eapply Hdc; [exact Hget|]. simpl. by rewrite Ht.
  - eapply Hresp. simpl. by rewrite Eg.
Qed.

Lemma fetch_dc_dispatch_failures_witness :
  fetch_dc (fun _ _ => Return (Document (JObject [("error", JString "not found")]))) "42" []
  = ([], Raise (KeyError "dataContainer")).
Proof.
  apply (fetch_dc_dispatch_failures
           (fun _ _ => Return (Document (JObject [("error", JString "not found")]))) "42"
           (JObject [("error", JString "not found")]) []).
  reflexivity.
Defined.

(** ** The models: what they accept, what escapes them *)

(** X10.  A container without ["type"] makes [parse_obj] raise [KeyError],
    not [ValidationError]: [type_must_match] subscripts the container
    before asserting, and a [KeyError] raised by a validator is not turned
    into a field error.  This holds for each of the seven models and
    whatever the other fields of the response are. *)
Theorem parse_obj_KeyError_without_type
    (cls : model) (obj d : list (string * value)) :
  dict_get obj "dataContainer" = Some (PDict d) ->
  dict_get d "type" = None ->
  type_must_match cls (PDict d) = Raise (KeyError "type") /\
  parse_obj cls (PDict obj) = Raise (KeyError "type").
Proof.
  intros Hdc Ht.
  assert (type_must_match cls (PDict d) = Raise (KeyError "type")) as Htm.
  { unfold type_must_match. simpl. by rewrite Ht. }
  split; [exact Htm|].
  unfold parse_obj, validate_model. simpl.
  destruct (required_str "ref" obj) as [e1 ->]. simpl.
  unfold required at 1. rewrite Hdc. simpl. rewrite Htm. reflexivity.
Qed.

Lemma parse_obj_KeyError_without_type_witness :
  parse_obj ScalarModel (decode (response_document (JObject [("c", JInt 3)])))
  = Raise (KeyError "type").
Proof.
  eapply (parse_obj_KeyError_without_type ScalarModel); reflexivity.
Defined.

Lemma keys_must_match_well_shaped (cls : model) (d : list (string * value)) :
  if well_shaped cls d then keys_must_match cls (PDict d) = Return (PDict d)
  else exists msg, keys_must_match cls (PDict d) = Raise (AssertionError msg).
Proof.
  destruct cls;
    unfold well_shaped, has_list, keys_must_match, assert_in, assert_list, contains,
      dict_contains, getitem, py_assert;
    cbn -[isinstance]; case_dict_get d; eauto;
    repeat match goal with
           | |- context [isinstance ?v ?t] => destruct (isinstance v t); cbn -[isinstance]
           end; eauto.
Qed.

Lemma required_str_present (loc : string) (obj : list (string * value)) (s : string) :
  dict_get obj loc = Some (PStr s) -> required loc [str_field] obj = Return [].
Proof. intros H. unfold required. rewrite H. reflexivity. Qed.

(** X11.  What a model accepts.  On a response whose five str fields are
    strs, whose ["metadata"] is a dict and whose ["dataContainer"] is a
    dict with a ["type"], [parse_obj] returns exactly when the tag is the
    model's and the container is well shaped for it: the listed keys are
    there with a list (a dict for DataFrame's ["m"], an int or float for
    Scalar's ["c"]).  Otherwise it raises a [ValidationError] with the one
    failed assertion.  Nothing else is looked at: not the items of the
    lists, not their lengths, not an Image's ["a"]. *)
Theorem parse_obj_accepts_exactly
    (cls : model) (obj d m : list (string * value)) (t : value) :
  (forall k, In k str_fields -> exists s, dict_get obj k = Some (PStr s)) ->
  dict_get obj "metadata" = Some (PDict m) ->
  dict_get obj "dataContainer" = Some (PDict d) ->
  dict_get d "type" = Some t ->
  if eq_str t (tag cls) && well_shaped cls d
  then parse_obj cls (PDict obj) = Return tt
  else exists msg,
         parse_obj cls (PDict obj)
         = Raise (ValidationError (model_name cls) [("dataContainer", AssertionError msg)]).
Proof.
  intros Hstr Hmeta Hdc Ht.
  assert (forall k, In k str_fields -> required k [str_field] obj = Return []) as Hs.
  { intros k Hk. destruct (Hstr k Hk) as [s Hks]. by apply (required_str_present k obj s). }
  unfold parse_obj, validate_model. cbn [bind].
  rewrite (Hs "ref"), (Hs "workspaceId"), (Hs "privacy"), (Hs "location"), (Hs "note")
    by (unfold str_fields; simpl; tauto).
  rewrite (required_dataContainer cls obj d t Hdc Ht).
  assert (required "metadata" [dict_validator] obj = Return []) as ->
      by (unfold required; by rewrite Hmeta).
  pose proof (keys_must_match_well_shaped cls d) as Hk.
  destruct (eq_str t (tag cls)); cbn [andb]; [|by eexists].
  destruct (well_shaped cls d); [by rewrite Hk | destruct Hk as [msg ->]; by eexists].
Qed.

Lemma parse_obj_accepts_exactly_witness :
  parse_obj MatrixModel
    (PDict (response_fields (PDict [("type", PStr "Matrix"); ("m", PList [PInt 1])])))
  = Return tt /\
  exists msg,
    parse_obj ImageModel
      (PDict (response_fields
                (PDict [("type", PStr "Image"); ("r", PList []); ("g", PList [])])))
    = Raise (ValidationError "ImageModel" [("dataContainer", AssertionError msg)]).
Proof.
  assert (forall c k, In k str_fields ->
                      exists s, dict_get (response_fields c) k = Some (PStr s)) as Hstr.
  { intros c k Hk. unfold str_fields in Hk. simpl in Hk.
    destruct Hk as [<-|[<-|[<-|[<-|[<-|[]]]]]]; eexists; reflexivity. }
  split.
  - apply (parse_obj_accepts_exactly MatrixModel
             (response_fields (PDict [("type", PStr "Matrix"); ("m", PList [PInt 1])]))
             [("type", PStr "Matrix"); ("m", PList [PInt 1])] [] (PStr "Matrix")
             (Hstr _) eq_refl eq_refl eq_refl).
  - apply (parse_obj_accepts_exactly ImageModel
             (response_fields (PDict [("type", PStr "Image"); ("r", PList []); ("g", PList [])]))
             [("type", PStr "Image"); ("r", PList []); ("g", PList [])] [] (PStr "Image")
             (Hstr _) eq_refl eq_refl eq_refl).
Defined.

(** ** [to_python] on validated containers *)





(** ** Round trips: scalars, ordered pairs, matrices *)








Lemma decode_number (x : value) :
  numeric x \/ x = PNone -> decode (number x) = item x.
Proof. intros [H | ->]; [destruct x; try contradiction|]; reflexivity. Qed.

(** The document of a 2-d array of numbers decodes to its nested lists. *)
Lemma decode_matrix_json (items : list value) (h w : nat) :
  Forall numeric items -> decode (matrix_json items h w) = tolist [h; w] items.
Proof.
  intros Hnum. rewrite tolist_2d. unfold matrix_json.
  change (decode (JArray ?l)) with (PList (map decode l)).
  rewrite map_map. f_equal. apply map_ext. intros i.
  change (decode (JArray ?l)) with (PList (map decode l)).
  rewrite map_map. f_equal. apply map_ext. intros j.
  apply decode_number, numeric_nth, Hnum.
Qed.

Lemma encode_tolist_2d (cls : encoder) (again : value -> result json)
    (h w : nat) (items : list value) :
  Forall numeric items ->
  encode_with cls again (tolist [h; w] items) = Return (matrix_json items h w).
Proof.
  intros Hnum. rewrite tolist_2d, encode_with_list. unfold matrix_json.
  rewrite (mapR_map_Return _ _
             (fun i => JArray (map (fun j => number (nth (i * w + j) items PNone)) (seq 0 w))));
    [reflexivity|].
  intros i _. rewrite encode_with_list.
  rewrite (mapR_map_Return _ _ (fun j => number (nth (i * w + j) items PNone)));
    [reflexivity|].
  intros j _. apply encode_with_item, numeric_nth, Hnum.
Qed.

Lemma lookup_map_seq {A : Type} (f : nat -> A) (n j : nat) :
  j < n -> map f (seq 0 n) !! j = Some (f j).
Proof. intros Hj. by rewrite list_lookup_fmap, lookup_seq_lt. Qed.

(** The frame of a list of [h] rows of [w] cells each, [h] positive. *)
Lemma pd_DataFrame_rows (cell : nat -> nat -> value) (h w : nat) :
  0 < h ->
  pd_DataFrame (PList (map (fun i => PList (map (cell i) (seq 0 w))) (seq 0 h)))
  = Return (DataFrame (RangeIndex w) (RangeIndex h)
              (map (fun j => map (fun i => cell i j) (seq 0 h)) (seq 0 w))).
Proof.
  intros Hh. destruct h as [|h]; [lia|].
  set (rows := map (fun i => PList (map (cell i) (seq 0 w))) (seq 0 (S h))).
  assert (forallb is_scalar rows = false) as Hsc by reflexivity.
  assert (forallb is_list rows = true) as Hli.
  { apply forallb_forall. intros r Hr. apply in_map_iff in Hr as (i & <- & _). reflexivity. }
  assert (omap list_len rows = map (fun _ => w) (seq 0 (S h))) as Hlen.
  { unfold rows. generalize (seq 0 (S h)). intros l.
    induction l as [|i l IH]; [reflexivity|].
    change (omap list_len (map (fun i => PList (map (cell i) (seq 0 w))) (i :: l)))
      with (length (map (cell i) (seq 0 w))
            :: omap list_len (map (fun i => PList (map (cell i) (seq 0 w))) l)).
    rewrite length_map, length_seq, IH. reflexivity. }
  assert (pd_DataFrame (PList rows)
          = Return (DataFrame (RangeIndex w) (RangeIndex (length rows))
                      (map (column_of_rows rows) (seq 0 w)))) as ->.
  { unfold pd_DataFrame. unfold rows at 1. cbn [seq map]. fold rows.
    rewrite Hsc, Hli, Hlen. cbn [seq map].
    assert (forallb (Nat.eqb w) (map (fun _ => w) (seq 1 h)) = true) as ->; [|reflexivity].
    apply forallb_forall. intros x Hx. apply in_map_iff in Hx as (_ & <- & _).
    apply Nat.eqb_refl. }
  unfold rows at 1. rewrite length_map, length_seq. f_equal. f_equal.
  apply map_ext_in. intros j Hj. apply in_seq in Hj.
  unfold column_of_rows, rows. rewrite map_map. apply map_ext. intros i.
  rewrite lookup_map_seq by lia. reflexivity.
Qed.

Lemma encode_with_m_envelope (cls : encoder) (again : value -> result json)
    (dc_type : string) (m : value) (jm : json) :
  encode_with cls again m = Return jm ->
  encode_with cls again (envelope dc_type [("m", m)])
  = Return (JObject [("data", JObject [("type", JString dc_type); ("m", jm)])]).
Proof. intros Hm. unfold envelope. simpl. rewrite Hm. reflexivity. Qed.

(** X16.  Matrix and Grayscale from a 2-d array of numbers: the payload's
    ["m"] is the array row by row, and converting the payload back gives
    the frame with one column per array column and one row per array row,
    cell (i, j) of the array in row i of column j.  Every cell comes back,
    as a plain int or float. *)
Theorem round_trip_Matrix
    (to_json : value -> string) (float_of_str : string -> option spec_float)
    (dc_type : string) (h w : nat) (items : list value) (out : stdout) :
  dc_type = "Matrix" \/ dc_type = "Grayscale" ->
  Forall numeric items ->
  create_payload to_json (NdArray [h; w] items) dc_type out
  = (out, Return (JObject [("data", JObject [("type", JString dc_type);
                                             ("m", matrix_json items h w)])])) /\
  (0 < h ->
   round_trip to_json float_of_str (NdArray [h; w] items) dc_type
   = Return (DataFrame (RangeIndex w) (RangeIndex h) (columns_of items h w))).
Proof.
  intros Hkind Hnum.
  assert (forall o, create_payload to_json (NdArray [h; w] items) dc_type o
          = (o, Return (JObject [("data", JObject [("type", JString dc_type);
                                                   ("m", matrix_json items h w)])])))
    as Hp.
  { intros o.
    pose proof (encode_with_m_envelope NumpyEncoder (iterencode NumpyEncoder 999) dc_type
                  (NdArray [h; w] items) (matrix_json items h w)
                  (encode_tolist_2d _ _ h w items Hnum
                   : encode_with NumpyEncoder (iterencode NumpyEncoder 999)
                       (NdArray [h; w] items) = _)
                : json_dumps (envelope dc_type [("m", NdArray [h; w] items)]) NumpyEncoder = _)
      as Hd.
    destruct Hkind as [-> | ->];
      unfold create_payload, bindM, lift, retM; cbn -[json_dumps envelope];
      rewrite Hd; reflexivity. }
  split; [apply Hp|].
  intros Hh. unfold round_trip. rewrite Hp.
  assert (bind (as_container (JObject [("data", JObject [("type", JString dc_type);
                                                          ("m", matrix_json items h w)])]))
            (to_python float_of_str)
          = pd_DataFrame (decode (matrix_json items h w))) as ->.
  { destruct Hkind as [-> | ->]; reflexivity. }
  rewrite decode_matrix_json, tolist_2d by exact Hnum.
  apply (pd_DataFrame_rows (fun i j => item (nth (i * w + j) items PNone)) h w Hh).
Qed.

Lemma round_trip_Matrix_witness :
  round_trip (fun _ => "{}") (fun _ => None)
    (NdArray [2; 3] (map NpInteger [1; 2; 3; 4; 5; 6]%Z)) "Grayscale"
  = Return (DataFrame (RangeIndex 3) (RangeIndex 2)
              [[PInt 1; PInt 4]; [PInt 2; PInt 5]; [PInt 3; PInt 6]]).
Proof.
  apply (round_trip_Matrix (fun _ => "{}") (fun _ => None) "Grayscale" 2 3
           (map NpInteger [1; 2; 3; 4; 5; 6]%Z) []);
    [right; reflexivity | repeat constructor | lia].
Defined.

(** ** Round trips: images *)















(** ** [to_python] on containers that miss their datasets *)

(** X19.  [to_python] checks nothing before it converts.  On a container
    with a recognized tag but without its dataset it raises the
    [KeyError] of the missing key: ["m"] for DataFrame, Matrix and
    Grayscale, ["c"] for Scalar, ["r"] for Image.  On an OrderedPair or
    OrderedTriple container that holds no list at all (every entry a
    scalar, as when only ["type"] is there) it raises the [ValueError] of
    the frame constructor instead. *)
Theorem to_python_missing_dataset
    (float_of_str : string -> option spec_float) (dc : value) (d : list (string * value))
    (t : string) :
  getitem dc "dataContainer" = Return (PDict d) ->
  dict_get d "type" = Some (PStr t) ->
  (t = "DataFrame" \/ t = "Matrix" \/ t = "Grayscale" ->
   dict_get d "m" = None -> to_python float_of_str dc = Raise (KeyError "m")) /\
  (t = "Scalar" ->
   dict_get d "c" = None -> to_python float_of_str dc = Raise (KeyError "c")) /\
  (t = "Image" ->
   dict_get d "r" = None -> to_python float_of_str dc = Raise (KeyError "r")) /\
  (t = "OrderedPair" \/ t = "OrderedTriple" ->
   forallb (fun kv => is_scalar (snd kv)) d = true ->
   to_python float_of_str dc
   = Raise (ValueError "If using all scalar values, you must pass an index")).
Proof.
  intros Hdc Ht.
  repeat split.
  - intros [-> | [-> | ->]] Hm; unfold to_python; rewrite Hdc; cbn [bind getitem];
      rewrite Ht; cbn -[pd_DataFrame]; by rewrite Hm.
  - intros -> Hc. unfold to_python. rewrite Hdc. cbn [bind getitem].
    rewrite Ht. cbn. by rewrite Hc.
  - intros -> Hr. unfold to_python. rewrite Hdc. cbn [bind getitem].
    rewrite Ht. cbn -[np_stack_axis2]. by rewrite Hr.
  - intros Hkind Hsc.
    assert (to_python float_of_str dc
            = bind (pd_DataFrame (PDict d)) (fun df => drop_column df "type")) as ->.
    { destruct Hkind as [-> | ->]; unfold to_python; rewrite Hdc; cbn [bind getitem];
        rewrite Ht; reflexivity. }
    assert (forallb (fun kv => is_list kv.2 || is_scalar kv.2) d = true) as Hall.
    { apply forallb_forall. intros kv Hkv.
      rewrite forallb_forall in Hsc. rewrite (Hsc kv Hkv). apply orb_true_r. }
    assert (omap (fun kv : string * value => list_len kv.2) d = []) as Hno.
    { clear -Hsc. induction d as [|[k v] d IH]; [reflexivity|].
      simpl in Hsc. apply andb_true_iff in Hsc as [Hv Hd].
      change (omap (fun kv : string * value => list_len kv.2) ((k, v) :: d))
        with (match list_len v with
              | Some n => n :: omap (fun kv : string * value => list_len kv.2) d
              | None => omap (fun kv : string * value => list_len kv.2) d
              end).
      rewrite (IH Hd). destruct v; try discriminate; reflexivity. }
    destruct d as [|kv d]; [discriminate|].
    unfold pd_DataFrame. rewrite Hall, Hno. reflexivity.
Qed.

Lemma to_python_missing_dataset_witness :
  to_python (fun _ => None) (PDict [("dataContainer", PDict [("type", PStr "Matrix")])])
  = Raise (KeyError "m") /\
  to_python (fun _ => None) (PDict [("dataContainer", PDict [("type", PStr "OrderedPair")])])
  = Raise (ValueError "If using all scalar values, you must pass an index").
Proof.
  split.
  - eapply (to_python_missing_dataset (fun _ => None) _ [("type", PStr "Matrix")] "Matrix");
      try reflexivity. tauto.
  - eapply (to_python_missing_dataset (fun _ => None) _ [("type", PStr "OrderedPair")]
              "OrderedPair"); try reflexivity. tauto.
Defined.
